(** * useAntiInspect: a shallow embedding of [src/useAntiInspect.js]

    The hook installs three event handlers ([detectDevTools],
    [disableRightClick], [disableKeyboardShortcuts]), silences the five
    console slots and returns a cleanup closure.  The handlers converge on
    one reaction, [handleDevToolsOpen], which clears both storage areas and
    expires every cookie of [document.cookie].

    The browser is modelled as an explicit [World] threaded through a small
    state/exception/trace monad. *)

From Stdlib Require Import ZArith NArith Ascii String.
From stdpp Require Import gmap list.

Local Open Scope Z_scope.

(** ** JavaScript strings

    A JavaScript string is a sequence of UTF-16 code units. *)

Abbreviation jsstring := (list N).

Definition js (s : string) : jsstring :=
  map N_of_ascii (list_ascii_of_string s).

Definition SEMICOLON : N := 59%N.
Definition SPACE : N := 32%N.
Definition EQUALS : N := 61%N.

(** LineTerminator of the regular-expression grammar: LF, CR, LS, PS.
    The pattern character [.] matches every code unit but these. *)
Definition is_line_terminator (c : N) : bool :=
  (c =? 10)%N || (c =? 13)%N || (c =? 8232)%N || (c =? 8233)%N.

(** [s.split(sep)] for a one-character separator: the result is never
    empty, and an empty string splits into one empty segment. *)
Fixpoint split_on (sep : N) (s : jsstring) : list jsstring :=
  match s with
  | [] => [[]]
  | c :: s' =>
      if (c =? sep)%N then [] :: split_on sep s'
      else match split_on sep s' with
           | seg :: segs => (c :: seg) :: segs
           | [] => [[c]]
           end
  end.

(** [s.replace(/^ +/, "")]: the run of spaces at the start is removed. *)
Fixpoint strip_leading_spaces (s : jsstring) : jsstring :=
  match s with
  | c :: s' => if (c =? SPACE)%N then strip_leading_spaces s' else s
  | [] => []
  end.

(** The part of [s] that [.*] leaves unmatched: from the first line
    terminator on. *)
Fixpoint after_dot_star (s : jsstring) : jsstring :=
  match s with
  | c :: s' => if is_line_terminator c then s else after_dot_star s'
  | [] => []
  end.

(** [s.replace(/=.*/, r)] for a replacement [r] without [$] patterns: the
    first [=] and the rest of its line are replaced, once. *)
Fixpoint replace_eq_dot_star (r : jsstring) (s : jsstring) : jsstring :=
  match s with
  | c :: s' =>
      if (c =? EQUALS)%N then r ++ after_dot_star s'
      else c :: replace_eq_dot_star r s'
  | [] => []
  end.

(** [new Date(0).toUTCString()] *)
Definition EPOCH_UTC : jsstring := js "Thu, 01 Jan 1970 00:00:00 GMT".

(** The template literal [`=;expires=${new Date(0).toUTCString()};path=/`]. *)
Definition EXPIRY : jsstring :=
  js "=;expires=" ++ EPOCH_UTC ++ js ";path=/".

(** The attribute [expires=<epoch-date>] inside [EXPIRY]. *)
Definition EXPIRY_ATTR : jsstring := js "expires=" ++ EPOCH_UTC.

(** The string assigned to [document.cookie] for one segment. *)
Definition expire_segment (cookie : jsstring) : jsstring :=
  replace_eq_dot_star EXPIRY (strip_leading_spaces cookie).

(** The assignments of one wipe, in order. *)
Definition cookie_assignments (cookies : jsstring) : list jsstring :=
  map expire_segment (split_on SEMICOLON cookies).

(** ** Values, events and function references *)

Inductive Value :=
| VUndefined
| VNull
| VBool (b : bool)
| VNumber (n : Z)
| VString (s : jsstring).

(** ToBoolean *)
Definition truthy (v : Value) : bool :=
  match v with
  | VUndefined | VNull => false
  | VBool b => b
  | VNumber n => negb (n =? 0)
  | VString s => match s with [] => false | _ => true end
  end.

(** [v === n] for a number literal [n] *)
Definition strict_eq_number (v : Value) (n : Z) : bool :=
  match v with
  | VNumber m => m =? n
  | _ => false
  end.

(** The properties of an event object that the handlers read; a property
    the object does not have reads as [VUndefined]. *)
Record Event := {
  keyCode : Value;
  ctrlKey : Value;
  shiftKey : Value
}.

Inductive HandlerKind :=
| DetectDevTools
| DisableRightClick
| DisableKeyboardShortcuts
| HandleDevToolsOpen.

(** Function objects are compared by reference.  A function of the host
    page is identified by its name; every evaluation of a function
    expression of the hook yields an object with a fresh identity. *)
Inductive FnRef :=
| HostFn (name : string)
| EmptyFn (id : nat)
| HookFn (k : HandlerKind) (id : nat).

Inductive Target := Window | Document.

Record Listener := {
  l_target : Target;
  l_type : string;
  l_callback : FnRef
}.

Record Console := {
  console_log : FnRef;
  console_warn : FnRef;
  console_error : FnRef;
  console_debug : FnRef;
  console_info : FnRef
}.

Inductive Slot := SLog | SWarn | SError | SDebug | SInfo.

Definition slot_get (s : Slot) (c : Console) : FnRef :=
  match s with
  | SLog => console_log c
  | SWarn => console_warn c
  | SError => console_error c
  | SDebug => console_debug c
  | SInfo => console_info c
  end.

Definition slot_set (s : Slot) (f : FnRef) (c : Console) : Console :=
  match s with
  | SLog => {| console_log := f; console_warn := console_warn c;
               console_error := console_error c;
               console_debug := console_debug c;
               console_info := console_info c |}
  | SWarn => {| console_log := console_log c; console_warn := f;
                console_error := console_error c;
                console_debug := console_debug c;
                console_info := console_info c |}
  | SError => {| console_log := console_log c;
                 console_warn := console_warn c; console_error := f;
                 console_debug := console_debug c;
                 console_info := console_info c |}
  | SDebug => {| console_log := console_log c;
                 console_warn := console_warn c;
                 console_error := console_error c; console_debug := f;
                 console_info := console_info c |}
  | SInfo => {| console_log := console_log c;
                console_warn := console_warn c;
                console_error := console_error c;
                console_debug := console_debug c; console_info := f |}
  end.

#[global] Instance Value_eq_dec : EqDecision Value.
Proof. solve_decision. Defined.
#[global] Instance HandlerKind_eq_dec : EqDecision HandlerKind.
Proof. solve_decision. Defined.
#[global] Instance FnRef_eq_dec : EqDecision FnRef.
Proof. solve_decision. Defined.
#[global] Instance Target_eq_dec : EqDecision Target.
Proof. solve_decision. Defined.
#[global] Instance Listener_eq_dec : EqDecision Listener.
Proof. solve_decision. Defined.

(** ** The browser *)

(** Modelled from the spec: the cookie surface of section 6 ("read all
    cookies as one delimited string; write one cookie assignment at a
    time").  Where the spec is silent the store follows the cookie store
    of browsers (RFC 6265bis) as far as the hook exercises it.  The jar
    holds, in insertion order, the name/value pairs that the document
    sees: the cookies of its host at path [/], for a document in the root
    directory.  A cookie may have an empty name. *)
Abbreviation Jar := (list (jsstring * jsstring)).

(** The text of one cookie in the cookie string: [name=value], and the
    value alone for a cookie without a name. *)
Definition cookie_pair (c : jsstring * jsstring) : jsstring :=
  match c.1 with
  | [] => c.2
  | _ :: _ => c.1 ++ EQUALS :: c.2
  end.

(** Modelled from the spec: the getter of [document.cookie], "all
    cookies as one delimited string": the cookie texts joined by [; ]. *)
Fixpoint jar_read (j : Jar) : jsstring :=
  match j with
  | [] => []
  | [c] => cookie_pair c
  | c :: j' => cookie_pair c ++ SEMICOLON :: SPACE :: jar_read j'
  end.

(** [s] up to its first [sep], and what follows that [sep] if there is
    one. *)
Fixpoint cut_at (sep : N) (s : jsstring) : jsstring * option jsstring :=
  match s with
  | [] => ([], None)
  | c :: s' =>
      if (c =? sep)%N then ([], Some s')
      else let r := cut_at sep s' in (c :: r.1, r.2)
  end.

Definition jsstring_eqb (a b : jsstring) : bool := bool_decide (a = b).

Definition jar_remove (name : jsstring) (j : Jar) : Jar :=
  filter (λ c, c.1 ≠ name) j.

Fixpoint jar_store (name value : jsstring) (j : Jar) : Jar :=
  match j with
  | [] => [(name, value)]
  | c :: j' =>
      if jsstring_eqb c.1 name then (name, value) :: j'
      else c :: jar_store name value j'
  end.

(** The attribute [path=/], as the hook writes it. *)
Definition PATH_ROOT : jsstring := js "path=/".

(** An attribute [path=...] that names another path than [/]. *)
Definition other_path (a : jsstring) : bool :=
  jsstring_eqb (take 5 a) (js "path=") && negb (jsstring_eqb a PATH_ROOT).

(** Modelled from the spec: the setter of [document.cookie], "one cookie
    assignment at a time".  The text before the first [;] is the cookie,
    the rest the attribute list.  The cookie is [name=value], cut at its
    first [=]; without [=] it is a value without a name.  An assignment
    with neither name nor value is ignored, and so is one for another
    path than [/], whose cookie the jar does not hold.  An assignment
    whose attribute list carries [expires=<epoch-date>] removes the
    cookie of that name; any other stores the cookie, in the place of the
    one of that name if there is one. *)
Definition jar_write (s : jsstring) (j : Jar) : Jar :=
  let (pair, tl) := cut_at SEMICOLON s in
  let attrs := split_on SEMICOLON (default [] tl) in
  let (name, value) :=
    match cut_at EQUALS pair with
    | (n, Some v) => (n, v)
    | (v, None) => ([], v)
    end in
  match name, value with
  | [], [] => j
  | _, _ =>
      if existsb other_path attrs then j
      else if bool_decide (EXPIRY_ATTR ∈ attrs) then jar_remove name j
      else jar_store name value j
  end.

(** A storage area; the hook only ever clears it. *)
Abbreviation Storage := (gmap jsstring jsstring).

(** The part of the page that the hook reads or writes.  A storage or
    cookie surface that the hosting context denies is [None]: reaching for
    it raises a [SecurityError]. *)
Record World := {
  outerWidth : Z;
  innerWidth : Z;
  outerHeight : Z;
  innerHeight : Z;
  localStorage : option Storage;
  sessionStorage : option Storage;
  cookieJar : option Jar;
  console : Console;
  listeners : list Listener;
  next_id : nat
}.

Definition set_localStorage (v : option Storage) (w : World) : World :=
  {| outerWidth := outerWidth w; innerWidth := innerWidth w;
     outerHeight := outerHeight w; innerHeight := innerHeight w;
     localStorage := v; sessionStorage := sessionStorage w;
     cookieJar := cookieJar w; console := console w;
     listeners := listeners w; next_id := next_id w |}.

Definition set_sessionStorage (v : option Storage) (w : World) : World :=
  {| outerWidth := outerWidth w; innerWidth := innerWidth w;
     outerHeight := outerHeight w; innerHeight := innerHeight w;
     localStorage := localStorage w; sessionStorage := v;
     cookieJar := cookieJar w; console := console w;
     listeners := listeners w; next_id := next_id w |}.

Definition set_cookieJar (v : option Jar) (w : World) : World :=
  {| outerWidth := outerWidth w; innerWidth := innerWidth w;
     outerHeight := outerHeight w; innerHeight := innerHeight w;
     localStorage := localStorage w; sessionStorage := sessionStorage w;
     cookieJar := v; console := console w;
     listeners := listeners w; next_id := next_id w |}.

Definition set_console (v : Console) (w : World) : World :=
  {| outerWidth := outerWidth w; innerWidth := innerWidth w;
     outerHeight := outerHeight w; innerHeight := innerHeight w;
     localStorage := localStorage w; sessionStorage := sessionStorage w;
     cookieJar := cookieJar w; console := v;
     listeners := listeners w; next_id := next_id w |}.

Definition set_listeners (v : list Listener) (w : World) : World :=
  {| outerWidth := outerWidth w; innerWidth := innerWidth w;
     outerHeight := outerHeight w; innerHeight := innerHeight w;
     localStorage := localStorage w; sessionStorage := sessionStorage w;
     cookieJar := cookieJar w; console := console w;
     listeners := v; next_id := next_id w |}.

Definition set_next_id (v : nat) (w : World) : World :=
  {| outerWidth := outerWidth w; innerWidth := innerWidth w;
     outerHeight := outerHeight w; innerHeight := innerHeight w;
     localStorage := localStorage w; sessionStorage := sessionStorage w;
     cookieJar := cookieJar w; console := console w;
     listeners := listeners w; next_id := v |}.

(** ** The monad: state, exceptions and a trace of observable actions *)

Inductive Exn := TypeError | SecurityError.

Inductive Area := LocalArea | SessionArea.

Inductive Effect :=
| EPreventDefault
| EClear (a : Area)
| ECookieAssign (s : jsstring)
| EOutput (name : string).

Inductive Outcome (A : Type) :=
| Ok (a : A)
| Throw (e : Exn).
Arguments Ok {A} a.
Arguments Throw {A} e.

Definition M (A : Type) : Type := World → Outcome A * World * list Effect.

Definition ret {A} (a : A) : M A := λ w, (Ok a, w, []).

Definition throw {A} (e : Exn) : M A := λ w, (Throw e, w, []).

Definition bind {A B} (m : M A) (f : A → M B) : M B :=
  λ w,
    match m w with
    | (Ok a, w1, t1) =>
        match f a w1 with
        | (r, w2, t2) => (r, w2, t1 ++ t2)
        end
    | (Throw e, w1, t1) => (Throw e, w1, t1)
    end.

Definition emit (e : Effect) : M unit := λ w, (Ok tt, w, [e]).

Definition get : M World := λ w, (Ok w, w, []).

Definition modify (f : World → World) : M unit := λ w, (Ok tt, f w, []).

#[global] Instance M_ret : MRet M := @ret.
#[global] Instance M_bind : MBind M := λ A B f m, bind m f.

(** [xs.forEach(f)] *)
Fixpoint forEach {A} (f : A → M unit) (xs : list A) : M unit :=
  match xs with
  | [] => ret tt
  | x :: xs' => f x;; forEach f xs'
  end.

(** ** Browser operations *)

(** [localStorage.clear()] *)
Definition localStorage_clear : M unit :=
  w ← get;
  match localStorage w with
  | None => throw SecurityError
  | Some _ => emit (EClear LocalArea);; modify (set_localStorage (Some ∅))
  end.

(** [sessionStorage.clear()] *)
Definition sessionStorage_clear : M unit :=
  w ← get;
  match sessionStorage w with
  | None => throw SecurityError
  | Some _ =>
      emit (EClear SessionArea);; modify (set_sessionStorage (Some ∅))
  end.

(** reading [document.cookie] *)
Definition document_cookie_get : M jsstring :=
  w ← get;
  match cookieJar w with
  | None => throw SecurityError
  | Some j => ret (jar_read j)
  end.

(** [document.cookie = s] *)
Definition document_cookie_set (s : jsstring) : M unit :=
  w ← get;
  match cookieJar w with
  | None => throw SecurityError
  | Some j =>
      emit (ECookieAssign s);; modify (set_cookieJar (Some (jar_write s j)))
  end.

(** [e.preventDefault()]; [e] is [None] when the handler is called with
    no argument. *)
Definition preventDefault (e : option Event) : M unit :=
  match e with
  | None => throw TypeError
  | Some _ => emit EPreventDefault
  end.

(** [e.p] *)
Definition prop (p : Event → Value) (e : option Event) : M Value :=
  match e with
  | None => throw TypeError
  | Some ev => ret (p ev)
  end.

(** [e?.p] *)
Definition opt_prop (p : Event → Value) (e : option Event) : Value :=
  match e with
  | None => VUndefined
  | Some ev => p ev
  end.

(** A listener already registered is not added again. *)
Definition register (l : Listener) (ls : list Listener) : list Listener :=
  if bool_decide (l ∈ ls) then ls else ls ++ [l].

(** [target.addEventListener(type, f)] *)
Definition addEventListener (tg : Target) (ty : string) (f : FnRef) : M unit :=
  modify (λ w,
    let l := {| l_target := tg; l_type := ty; l_callback := f |} in
    set_listeners (register l (listeners w)) w).

(** [target.removeEventListener(type, f)] *)
Definition removeEventListener (tg : Target) (ty : string) (f : FnRef)
  : M unit :=
  modify (λ w,
    let l := {| l_target := tg; l_type := ty; l_callback := f |} in
    set_listeners (filter (λ x, x ≠ l) (listeners w)) w).

(** Evaluation of a function expression: a new function object. *)
Definition new_function (mk : nat → FnRef) : M FnRef :=
  w ← get;
  modify (set_next_id (S (next_id w)));;
  ret (mk (next_id w)).

(** [console.<slot> = f] *)
Definition console_set (s : Slot) (f : FnRef) : M unit :=
  modify (λ w, set_console (slot_set s f (console w)) w).

(** ** The hook *)

(** [handleDevToolsOpen], lines 82-91. *)
Definition handleDevToolsOpen : M unit :=
  localStorage_clear;;
  sessionStorage_clear;;
  cookies ← document_cookie_get;
  forEach
    (λ cookie,
       document_cookie_set
         (replace_eq_dot_star EXPIRY (strip_leading_spaces cookie)))
    (split_on SEMICOLON cookies).

(** [detectDevTools], lines 22-31. *)
Definition detectDevTools (e : option Event) : M unit :=
  w ← get;
  let widthThreshold := 160 <? outerWidth w - innerWidth w in
  let heightThreshold := 160 <? outerHeight w - innerHeight w in
  let isF12 := strict_eq_number (opt_prop keyCode e) 123 in
  if widthThreshold || heightThreshold || isF12
  then handleDevToolsOpen
  else ret tt.

(** [disableRightClick], lines 39-42. *)
Definition disableRightClick (e : option Event) : M unit :=
  preventDefault e;;
  handleDevToolsOpen.

(** [disableKeyboardShortcuts], lines 58-72.  The condition reads
    [e.ctrlKey] first, which throws when there is no event; on an event
    object the reads have no effect, so they are done up front and the
    short-circuit operators become boolean ones. *)
Definition disableKeyboardShortcuts (e : option Event) : M unit :=
  ctrl ← prop ctrlKey e;
  shift ← prop shiftKey e;
  code ← prop keyCode e;
  if (truthy ctrl && truthy shift &&
        (strict_eq_number code 73 || strict_eq_number code 74
         || strict_eq_number code 67))
     || (truthy ctrl && strict_eq_number code 85)
     || strict_eq_number code 123
  then preventDefault e;; handleDevToolsOpen
  else ret tt.

(** What the cleanup closure captures. *)
Record Cleanup := {
  the_detectDevTools : FnRef;
  the_disableRightClick : FnRef;
  the_disableKeyboardShortcuts : FnRef;
  consoleOutput : FnRef
}.

(** The effect callback, lines 15-103: returns the cleanup closure. *)
Definition useAntiInspect_effect : M Cleanup :=
  f_detect ← new_function (HookFn DetectDevTools);
  f_click ← new_function (HookFn DisableRightClick);
  f_keys ← new_function (HookFn DisableKeyboardShortcuts);
  _ ← new_function (HookFn HandleDevToolsOpen);
  addEventListener Window "resize" f_detect;;
  addEventListener Document "contextmenu" f_click;;
  addEventListener Document "keydown" f_keys;;
  w ← get;
  let saved := console_log (console w) in
  f ← new_function EmptyFn; console_set SLog f;;
  f ← new_function EmptyFn; console_set SWarn f;;
  f ← new_function EmptyFn; console_set SError f;;
  f ← new_function EmptyFn; console_set SDebug f;;
  f ← new_function EmptyFn; console_set SInfo f;;
  ret {| the_detectDevTools := f_detect;
         the_disableRightClick := f_click;
         the_disableKeyboardShortcuts := f_keys;
         consoleOutput := saved |}.

(** The cleanup closure, lines 105-110. *)
Definition cleanup (c : Cleanup) : M unit :=
  removeEventListener Window "resize" (the_detectDevTools c);;
  removeEventListener Document "contextmenu" (the_disableRightClick c);;
  removeEventListener Document "keydown" (the_disableKeyboardShortcuts c);;
  console_set SLog (consoleOutput c).

(** A call [f()] of a function object without arguments. *)
Definition call (f : FnRef) : M unit :=
  match f with
  | HostFn name => emit (EOutput name)
  | EmptyFn _ => ret tt
  | HookFn DetectDevTools _ => detectDevTools None
  | HookFn DisableRightClick _ => disableRightClick None
  | HookFn DisableKeyboardShortcuts _ => disableKeyboardShortcuts None
  | HookFn HandleDevToolsOpen _ => handleDevToolsOpen
  end.

(** [console.<slot>()] *)
Definition console_call (s : Slot) : M unit :=
  w ← get;
  call (slot_get s (console w)).

Definition host_console : Console :=
  {| console_log := HostFn "log"; console_warn := HostFn "warn";
     console_error := HostFn "error"; console_debug := HostFn "debug";
     console_info := HostFn "info" |}.

Definition host_page : World :=
  {| outerWidth := 1280; innerWidth := 1280;
     outerHeight := 800; innerHeight := 720;
     localStorage := Some {[ js "token" := js "abc" ]};
     sessionStorage := Some {[ js "tab" := js "7" ]};
     cookieJar := Some [(js "a", js "1"); (js "b", js "2")];
     console := host_console;
     listeners := [];
     next_id := 0 |}.

(** The event of a key press, as the spec's signal
    [KeyDown(keyCode, ctrlKey, shiftKey)]. *)
Definition KeyDown (code : Z) (ctrl shift : bool) : Event :=
  {| keyCode := VNumber code; ctrlKey := VBool ctrl; shiftKey := VBool shift |}.

(** The wipe preceded by the suppression of the default action: the run
    of [handleDevToolsOpen] with [EPreventDefault] in front of its trace. *)
Definition suppressed_wipe (w : World) : Outcome unit * World * list Effect :=
  match handleDevToolsOpen w with
  | (r, w', t) => (r, w', EPreventDefault :: t)
  end.

(** A segment that starts with two spaces. *)
Definition two_leading_spaces (seg : jsstring) : bool :=
  match seg with
  | c1 :: c2 :: _ => (c1 =? SPACE)%N && (c2 =? SPACE)%N
  | _ => false
  end.

(** A cookie string as a cookie getter prints it: the cookie texts are
    joined by [; ], so that no segment starts with more than the one
    space of the separator, and cookie text holds no line terminator. *)
Definition getter_shaped (cookies : jsstring) : bool :=
  forallb (λ seg, negb (two_leading_spaces seg)) (split_on SEMICOLON cookies)
  && forallb (λ c, negb (is_line_terminator c)) cookies.

(** The text of a cookie as a store keeps it: not empty, trimmed at its
    start, and free of [;] and of line terminators. *)
Definition text_ok (s : jsstring) : bool :=
  match s with
  | [] => false
  | c :: _ => negb (c =? SPACE)%N
  end
  && forallb (λ c, negb (c =? SEMICOLON)%N && negb (is_line_terminator c)) s.

Definition jar_readable (j : Jar) : bool :=
  forallb (λ c, text_ok (cookie_pair c)) j.

(** A page that holds one cookie without a name, as
    [document.cookie = "foo"] leaves it. *)
Definition nameless_cookie_page : World :=
  set_cookieJar (Some [([], js "foo")]) host_page.

(** ** Auxiliary definitions for the statements *)

(** The condition of [disableKeyboardShortcuts], lines 61-67, on an event
    object. *)
Definition shortcut (ev : Event) : bool :=
  (truthy (ctrlKey ev) && truthy (shiftKey ev) &&
     (strict_eq_number (keyCode ev) 73 || strict_eq_number (keyCode ev) 74
      || strict_eq_number (keyCode ev) 67))
  || (truthy (ctrlKey ev) && strict_eq_number (keyCode ev) 85)
  || strict_eq_number (keyCode ev) 123.

(** The jar after a sequence of assignments. *)
Definition jar_write_all (ss : list jsstring) (j : Jar) : Jar :=
  fold_left (λ j s, jar_write s j) ss j.

(** The world after a wipe that ran to its end. *)
Definition wiped (j : Jar) (w : World) : World :=
  set_cookieJar (Some (jar_write_all (cookie_assignments (jar_read j)) j))
    (set_sessionStorage (Some ∅) (set_localStorage (Some ∅) w)).

(** [segs.join(sep)] for a one-character separator. *)
Fixpoint join_with (sep : N) (segs : list jsstring) : jsstring :=
  match segs with
  | [] => []
  | [seg] => seg
  | seg :: segs' => seg ++ sep :: join_with sep segs'
  end.

(** The closure that an activation on page [w] returns. *)
Definition cleanup_of (w : World) : Cleanup :=
  {| the_detectDevTools := HookFn DetectDevTools (next_id w);
     the_disableRightClick := HookFn DisableRightClick (1 + next_id w);
     the_disableKeyboardShortcuts :=
       HookFn DisableKeyboardShortcuts (2 + next_id w);
     consoleOutput := console_log (console w) |}.

(** The page as an activation leaves it. *)
Definition activated (w : World) : World :=
  set_console
    {| console_log := EmptyFn (4 + next_id w);
       console_warn := EmptyFn (5 + next_id w);
       console_error := EmptyFn (6 + next_id w);
       console_debug := EmptyFn (7 + next_id w);
       console_info := EmptyFn (8 + next_id w) |}
    (set_next_id (9 + next_id w)
       (set_listeners
          (register {| l_target := Document; l_type := "keydown";
                       l_callback := the_disableKeyboardShortcuts
                                       (cleanup_of w) |}
             (register {| l_target := Document; l_type := "contextmenu";
                          l_callback := the_disableRightClick
                                          (cleanup_of w) |}
                (register {| l_target := Window; l_type := "resize";
                             l_callback := the_detectDevTools
                                             (cleanup_of w) |}
                   (listeners w)))) w)).

(** A resize event: an object with none of the three properties. *)
Definition ResizeEvent : Event :=
  {| keyCode := VUndefined; ctrlKey := VUndefined; shiftKey := VUndefined |}.

(** A page whose docked panel exceeds the width threshold and whose
    hosting context denies local storage. *)
Definition denied_docked_page : World :=
  {| outerWidth := 1500; innerWidth := 1000;
     outerHeight := 800; innerHeight := 720;
     localStorage := None;
     sessionStorage := Some {[ js "tab" := js "7" ]};
     cookieJar := Some [(js "a", js "1"); (js "b", js "2")];
     console := host_console;
     listeners := [];
     next_id := 0 |}.

(** The spec's words for the containment policy of section 7: whatever
    throws, every surface that is there gets its sub-operation. *)
Definition spec_wipe_independent (w : World) : Prop :=
  match handleDevToolsOpen w with
  | (_, _, t) =>
      (is_Some (localStorage w) → EClear LocalArea ∈ t)
      ∧ (is_Some (sessionStorage w) → EClear SessionArea ∈ t)
      ∧ (∀ j, cookieJar w = Some j →
           Forall (λ s, ECookieAssign s ∈ t)
             (cookie_assignments (jar_read j)))
  end.

(** The spec's words for the rewriting of one segment (section 4.2):
    "strip a single leading space, replace everything from the first [=]
    through the end". *)
Definition spec_strip_single_space (s : jsstring) : jsstring :=
  match s with
  | c :: s' => if (c =? SPACE)%N then s' else s
  | [] => []
  end.

Fixpoint spec_replace_from_eq (r : jsstring) (s : jsstring) : jsstring :=
  match s with
  | c :: s' => if (c =? EQUALS)%N then r else c :: spec_replace_from_eq r s'
  | [] => []
  end.

Definition spec_cookie_assignments (cookies : jsstring) : list jsstring :=
  map (λ seg, spec_replace_from_eq EXPIRY (spec_strip_single_space seg))
    (split_on SEMICOLON cookies).

(** The claim C10 as it is worded: the handler called without an event
    never throws. *)
Definition spec_detectDevTools_never_throws (w : World) : Prop :=
  ∃ w' t, detectDevTools None w = (Ok tt, w', t).

(** The listeners that are left when a cleanup closure has removed its
    three. *)
Definition without_listeners (c : Cleanup) (ls : list Listener)
  : list Listener :=
  filter (λ x, x ≠ {| l_target := Document; l_type := "keydown";
                      l_callback := the_disableKeyboardShortcuts c |})
    (filter (λ x, x ≠ {| l_target := Document; l_type := "contextmenu";
                         l_callback := the_disableRightClick c |})
       (filter (λ x, x ≠ {| l_target := Window; l_type := "resize";
                            l_callback := the_detectDevTools c |}) ls)).

(** The page as a cleanup leaves it. *)
Definition cleaned (c : Cleanup) (w : World) : World :=
  set_console (slot_set SLog (consoleOutput c) (console w))
    (set_listeners (without_listeners c (listeners w)) w).

(** The world of the counterexample to C2: the page of [host_page] in a
    context that denies local storage. *)
Definition local_denied_page : World := set_localStorage None host_page.

(** ** Auxiliary definitions for the further properties *)

(** The three listeners of a cleanup closure, in the order in which the
    effect registers them (lines 93-95). *)
Definition the_listeners (c : Cleanup) : list Listener :=
  [ {| l_target := Window; l_type := "resize";
       l_callback := the_detectDevTools c |};
    {| l_target := Document; l_type := "contextmenu";
       l_callback := the_disableRightClick c |};
    {| l_target := Document; l_type := "keydown";
       l_callback := the_disableKeyboardShortcuts c |} ].

(** The identity of [f] was handed out before the counter reached [n];
    functions of the host page carry no counter. *)
Definition fn_below (n : nat) (f : FnRef) : bool :=
  match f with
  | HostFn _ => true
  | EmptyFn i => (i <? n)%nat
  | HookFn _ i => (i <? n)%nat
  end.

(** Every registered callback exists already: a function expression
    evaluated from now on is none of them. *)
Definition listeners_fresh (w : World) : bool :=
  forallb (λ l, fn_below (next_id w) (l_callback l)) (listeners w).

(** What the wipe and the handlers leave alone: geometry, console,
    listeners and the identity counter; and a surface neither appears nor
    disappears. *)
Definition same_frame (w w' : World) : Prop :=
  outerWidth w' = outerWidth w ∧ innerWidth w' = innerWidth w
  ∧ outerHeight w' = outerHeight w ∧ innerHeight w' = innerHeight w
  ∧ console w' = console w ∧ listeners w' = listeners w
  ∧ next_id w' = next_id w
  ∧ (is_Some (localStorage w') ↔ is_Some (localStorage w))
  ∧ (is_Some (sessionStorage w') ↔ is_Some (sessionStorage w))
  ∧ (is_Some (cookieJar w') ↔ is_Some (cookieJar w)).

(** What activation and cleanup leave alone: geometry, storage areas and
    cookies. *)
Definition same_data (w w' : World) : Prop :=
  outerWidth w' = outerWidth w ∧ innerWidth w' = innerWidth w
  ∧ outerHeight w' = outerHeight w ∧ innerHeight w' = innerHeight w
  ∧ localStorage w' = localStorage w
  ∧ sessionStorage w' = sessionStorage w
  ∧ cookieJar w' = cookieJar w.

Definition is_empty_fn (f : FnRef) : bool :=
  match f with
  | EmptyFn _ => true
  | _ => false
  end.

(** The four slots that the cleanup does not write hold empty
    functions. *)
Definition four_silenced (w : World) : bool :=
  is_empty_fn (console_warn (console w))
  && is_empty_fn (console_error (console w))
  && is_empty_fn (console_debug (console w))
  && is_empty_fn (console_info (console w)).

(** * Properties *)

(** ** Laws of the monad *)

Lemma bind_get {A} (k : World → M A) (w : World) :
  (x ← get; k x) w = k w w.
Proof.
  unfold mbind, M_bind, bind, get.
  destruct (k w w) as [[r w'] t]; reflexivity.
Qed.

Lemma bind_ok {A B} (m : M A) (k : A → M B) w a w1 t1 :
  m w = (Ok a, w1, t1) →
  (x ← m; k x) w =
    match k a w1 with (r, w2, t2) => (r, w2, t1 ++ t2) end.
Proof. intros H. unfold mbind, M_bind, bind. rewrite H. reflexivity. Qed.

Lemma bind_throw {A B} (m : M A) (k : A → M B) w e w1 t1 :
  m w = (Throw e, w1, t1) → (x ← m; k x) w = (Throw e, w1, t1).
Proof. intros H. unfold mbind, M_bind, bind. rewrite H. reflexivity. Qed.

(** ** The handlers *)

Lemma detectDevTools_run (e : option Event) (w : World) :
  detectDevTools e w =
    if (160 <? outerWidth w - innerWidth w)
       || (160 <? outerHeight w - innerHeight w)
       || strict_eq_number (opt_prop keyCode e) 123
    then handleDevToolsOpen w
    else (Ok tt, w, []).
Proof.
  unfold detectDevTools. rewrite bind_get. cbv zeta.
  match goal with |- context [if ?c then _ else _] => destruct c end;
    reflexivity.
Qed.

Lemma disableRightClick_run (ev : Event) (w : World) :
  disableRightClick (Some ev) w = suppressed_wipe w.
Proof.
  unfold disableRightClick, suppressed_wipe, mbind, M_bind, bind. cbn.
  destruct (handleDevToolsOpen w) as [[r w'] t]; reflexivity.
Qed.

Lemma disableKeyboardShortcuts_run (ev : Event) (w : World) :
  disableKeyboardShortcuts (Some ev) w =
    if shortcut ev then suppressed_wipe w else (Ok tt, w, []).
Proof.
  unfold disableKeyboardShortcuts, shortcut, suppressed_wipe,
    mbind, M_bind, bind. cbn.
  match goal with |- context [if ?c then _ else _] => destruct c end;
    [destruct (handleDevToolsOpen w) as [[r w'] t] |]; reflexivity.
Qed.

(** *** The wipe, step by step *)

Lemma set_cookieJar_id (w : World) (j : Jar) :
  cookieJar w = Some j → set_cookieJar (Some j) w = w.
Proof. destruct w; cbn; intros ->; reflexivity. Qed.

Lemma localStorage_clear_run (w : World) :
  localStorage_clear w =
    match localStorage w with
    | None => (Throw SecurityError, w, [])
    | Some _ => (Ok tt, set_localStorage (Some ∅) w, [EClear LocalArea])
    end.
Proof.
  unfold localStorage_clear. rewrite bind_get.
  destruct (localStorage w); reflexivity.
Qed.

Lemma sessionStorage_clear_run (w : World) :
  sessionStorage_clear w =
    match sessionStorage w with
    | None => (Throw SecurityError, w, [])
    | Some _ => (Ok tt, set_sessionStorage (Some ∅) w, [EClear SessionArea])
    end.
Proof.
  unfold sessionStorage_clear. rewrite bind_get.
  destruct (sessionStorage w); reflexivity.
Qed.

Lemma document_cookie_get_run (w : World) :
  document_cookie_get w =
    match cookieJar w with
    | None => (Throw SecurityError, w, [])
    | Some j => (Ok (jar_read j), w, [])
    end.
Proof.
  unfold document_cookie_get. rewrite bind_get.
  destruct (cookieJar w); reflexivity.
Qed.

Lemma document_cookie_set_run (s : jsstring) (w : World) :
  document_cookie_set s w =
    match cookieJar w with
    | None => (Throw SecurityError, w, [])
    | Some j =>
        (Ok tt, set_cookieJar (Some (jar_write s j)) w, [ECookieAssign s])
    end.
Proof.
  unfold document_cookie_set. rewrite bind_get.
  destruct (cookieJar w); reflexivity.
Qed.

Lemma forEach_cookie_set (f : jsstring → jsstring) (xs : list jsstring) :
  ∀ (w : World) (j : Jar),
    cookieJar w = Some j →
    forEach (λ cookie, document_cookie_set (f cookie)) xs w =
      (Ok tt, set_cookieJar (Some (jar_write_all (map f xs) j)) w,
       map ECookieAssign (map f xs)).
Proof.
  induction xs as [| x xs IH]; intros w j Hj.
  - cbn. unfold ret. by rewrite set_cookieJar_id.
  - cbn [forEach map].
    rewrite (bind_ok _ _ w tt (set_cookieJar (Some (jar_write (f x) j)) w)
               [ECookieAssign (f x)]).
    + by rewrite (IH _ (jar_write (f x) j)).
    + by rewrite document_cookie_set_run, Hj.
Qed.

(** There is no containment in [handleDevToolsOpen]: the three
    sub-operations run in the order of the source, and the first surface
    that throws ends the wipe. *)
Lemma handleDevToolsOpen_run (w : World) :
  handleDevToolsOpen w =
    match localStorage w, sessionStorage w, cookieJar w with
    | None, _, _ => (Throw SecurityError, w, [])
    | Some _, None, _ =>
        (Throw SecurityError, set_localStorage (Some ∅) w,
         [EClear LocalArea])
    | Some _, Some _, None =>
        (Throw SecurityError,
         set_sessionStorage (Some ∅) (set_localStorage (Some ∅) w),
         [EClear LocalArea; EClear SessionArea])
    | Some _, Some _, Some j =>
        (Ok tt, wiped j w,
         EClear LocalArea :: EClear SessionArea
           :: map ECookieAssign (cookie_assignments (jar_read j)))
    end.
Proof.
  unfold handleDevToolsOpen.
  destruct (localStorage w) as [l|] eqn:Hl.
  2: { apply bind_throw. by rewrite localStorage_clear_run, Hl. }
  rewrite (bind_ok _ _ w tt (set_localStorage (Some ∅) w) [EClear LocalArea])
    by (by rewrite localStorage_clear_run, Hl).
  destruct (sessionStorage w) as [s|] eqn:Hs.
  2: { rewrite (bind_throw _ _ _ SecurityError
                  (set_localStorage (Some ∅) w) []); [reflexivity |].
       rewrite sessionStorage_clear_run. cbn. by rewrite Hs. }
  rewrite (bind_ok _ _ _ tt
             (set_sessionStorage (Some ∅) (set_localStorage (Some ∅) w))
             [EClear SessionArea])
    by (rewrite sessionStorage_clear_run; cbn; by rewrite Hs).
  destruct (cookieJar w) as [j|] eqn:Hj.
  2: { rewrite (bind_throw _ _ _ SecurityError
                  (set_sessionStorage (Some ∅) (set_localStorage (Some ∅) w))
                  []); [reflexivity |].
       rewrite document_cookie_get_run. cbn. by rewrite Hj. }
  rewrite (bind_ok _ _ _ (jar_read j)
             (set_sessionStorage (Some ∅) (set_localStorage (Some ∅) w)) [])
    by (rewrite document_cookie_get_run; cbn; by rewrite Hj).
  rewrite (forEach_cookie_set _ _ _ j) by exact Hj.
  reflexivity.
Qed.

(** The wipe always leaves a mark: it throws or its trace is not empty.
    So a run that fired it is never mistaken for one that did nothing. *)
Lemma wipe_not_idle (w w' : World) : handleDevToolsOpen w ≠ (Ok tt, w', []).
Proof.
  rewrite handleDevToolsOpen_run.
  destruct (localStorage w), (sessionStorage w), (cookieJar w); discriminate.
Qed.

Lemma suppressed_wipe_not_idle (w w' : World) :
  suppressed_wipe w ≠ (Ok tt, w', []).
Proof.
  unfold suppressed_wipe.
  destruct (handleDevToolsOpen w) as [[r w1] t]; discriminate.
Qed.

(** ** Strings

    Splitting loses nothing: the segments joined by the separator give the
    string back, and no segment holds a separator. *)

Lemma split_on_nonempty (sep : N) (s : jsstring) : split_on sep s ≠ [].
Proof. induction s as [| c s IH]; cbn; [done |]. by repeat case_match. Qed.

Lemma split_on_cons_ne (sep c : N) (s : jsstring) :
  c ≠ sep →
  split_on sep (c :: s) =
    (c :: hd [] (split_on sep s)) :: tl (split_on sep s).
Proof.
  intros Hc. cbn. destruct (N.eqb_spec c sep) as [|_]; [done |].
  pose proof (split_on_nonempty sep s). by destruct (split_on sep s).
Qed.

Lemma split_on_app_sep (sep : N) (a b : jsstring) :
  sep ∉ a → split_on sep (a ++ sep :: b) = a :: split_on sep b.
Proof.
  induction a as [| c a IH]; intros Ha.
  - cbn. by rewrite N.eqb_refl.
  - apply not_elem_of_cons in Ha as [Hc Ha].
    rewrite <- app_comm_cons, split_on_cons_ne, IH by done. done.
Qed.

Lemma split_on_no_sep (sep : N) (a : jsstring) :
  sep ∉ a → split_on sep a = [a].
Proof.
  induction a as [| c a IH]; intros Ha; [done |].
  apply not_elem_of_cons in Ha as [Hc Ha].
  rewrite split_on_cons_ne, IH by done. done.
Qed.

Lemma join_split_on (sep : N) (s : jsstring) :
  join_with sep (split_on sep s) = s.
Proof.
  induction s as [| c s IH]; [done |].
  cbn [split_on]. pose proof (split_on_nonempty sep s) as Hne.
  destruct (N.eqb_spec c sep) as [-> |_].
  - cbn. destruct (split_on sep s); [done |]. cbn in *. by rewrite IH.
  - destruct (split_on sep s) as [| seg segs]; [done |].
    cbn in *. destruct segs; cbn in *; by rewrite <- IH.
Qed.

Lemma split_on_segments (sep : N) (s : jsstring) :
  Forall (λ seg, sep ∉ seg) (split_on sep s).
Proof.
  induction s as [| c s IH]; cbn.
  - repeat constructor. apply not_elem_of_nil.
  - destruct (N.eqb_spec c sep) as [-> | Hc].
    + constructor; [apply not_elem_of_nil | done].
    + destruct (split_on sep s) as [| seg segs].
      * repeat constructor. by intros ->%list_elem_of_singleton.
      * apply Forall_cons in IH as [Hseg Hsegs].
        constructor; [| done]. by apply not_elem_of_cons.
Qed.

Lemma length_split_on (sep : N) (s : jsstring) :
  length (split_on sep s) = S (length (filter (λ c, c = sep) s)).
Proof.
  induction s as [| c s IH]; [done |]. cbn [split_on].
  rewrite filter_cons. destruct (N.eqb_spec c sep) as [-> | Hc].
  - rewrite decide_True by done. cbn. by rewrite IH.
  - rewrite decide_False by done.
    pose proof (split_on_nonempty sep s).
    destruct (split_on sep s); [done |]. cbn in *. done.
Qed.

Lemma strip_leading_spaces_repeat (k : nat) (s : jsstring) :
  head s ≠ Some SPACE →
  strip_leading_spaces (repeat SPACE k ++ s) = s.
Proof.
  intros Hs. induction k as [| k IH]; cbn.
  - destruct s as [| c s]; [done |]. cbn.
    destruct (N.eqb_spec c SPACE) as [-> |]; [| done]. by destruct Hs.
  - done.
Qed.

Lemma after_dot_star_line (s : jsstring) :
  Forall (λ c, is_line_terminator c = false) s → after_dot_star s = [].
Proof. induction 1 as [| c s Hc _ IH]; cbn; [done |]. by rewrite Hc. Qed.

Lemma after_dot_star_app (a b : jsstring) (c : N) :
  Forall (λ c, is_line_terminator c = false) a →
  is_line_terminator c = true →
  after_dot_star (a ++ c :: b) = c :: b.
Proof.
  intros Ha Hc. induction Ha as [| x a Hx _ IH]; cbn.
  - by rewrite Hc.
  - by rewrite Hx.
Qed.

Lemma replace_eq_dot_star_app (r name rest : jsstring) :
  EQUALS ∉ name →
  replace_eq_dot_star r (name ++ EQUALS :: rest) =
    name ++ r ++ after_dot_star rest.
Proof.
  induction name as [| c name IH]; intros Hn; [done |].
  apply not_elem_of_cons in Hn as [Hc Hn]. cbn.
  destruct (N.eqb_spec c EQUALS); [done |]. by rewrite IH.
Qed.

Lemma replace_eq_dot_star_none (r s : jsstring) :
  EQUALS ∉ s → replace_eq_dot_star r s = s.
Proof.
  induction s as [| c s IH]; intros Hs; [done |].
  apply not_elem_of_cons in Hs as [Hc Hs]. cbn.
  destruct (N.eqb_spec c EQUALS); [done |]. by rewrite IH.
Qed.

(** *** The code and the spec's words on getter-shaped strings *)






Example split_on_two_cookies :
  split_on SEMICOLON (js "a=1; b=2") = [js "a=1"; js " b=2"].
Proof. reflexivity. Qed.

Example split_on_empty : split_on SEMICOLON (js "") = [js ""].
Proof. reflexivity. Qed.

Example expire_segment_line_terminator :
  expire_segment [SPACE; SPACE; 97; EQUALS; 49; 8232; 50]%N
    = js "a" ++ EXPIRY ++ [8232; 50]%N.
Proof. reflexivity. Qed.

(** ** The cookie jar *)

Example jar_read_two_cookies :
  jar_read [(js "a", js "1"); (js "b", js "2")] = js "a=1; b=2".
Proof. reflexivity. Qed.

Example jar_read_nameless :
  jar_read [(js "a", js "1"); ([], js "foo")] = js "a=1; foo".
Proof. reflexivity. Qed.

Example jar_write_store :
  jar_write (js "b=2;path=/") [(js "a", js "1")]
    = [(js "a", js "1"); (js "b", js "2")].
Proof. reflexivity. Qed.

Example jar_write_nameless :
  jar_write (js "foo") [(js "a", js "1")]
    = [(js "a", js "1"); ([], js "foo")].
Proof. reflexivity. Qed.

Example jar_write_expired :
  jar_write (js "a" ++ EXPIRY) [(js "a", js "1"); (js "b", js "2")]
    = [(js "b", js "2")].
Proof. reflexivity. Qed.

Example jar_write_other_path :
  jar_write (js "a=;expires=Thu, 01 Jan 1970 00:00:00 GMT;path=/app")
    [(js "a", js "1")]
    = [(js "a", js "1")].
Proof. reflexivity. Qed.

Example jar_write_blank : jar_write (js "") [(js "a", js "1")]
                          = [(js "a", js "1")].
Proof. reflexivity. Qed.

Lemma text_ok_spec (s : jsstring) :
  text_ok s = true →
  s ≠ [] ∧ head s ≠ Some SPACE ∧ (SEMICOLON ∉ s)
  ∧ Forall (λ c, is_line_terminator c = false) s.
Proof.
  unfold text_ok. intros [Hh Hall]%andb_prop.
  rewrite forallb_forall in Hall.
  repeat split.
  - by destruct s.
  - destruct s as [| c s]; [done |]. cbn. intros [= ->]. done.
  - intros Hin%list_elem_of_In. apply Hall in Hin. done.
  - apply Forall_forall. intros c Hin%list_elem_of_In. apply Hall in Hin.
    apply andb_prop in Hin as [_ Hin]. by apply negb_true_iff.
Qed.

(** The segments of the cookie string of a readable jar: the first
    cookie text, and the others after the space of their separator. *)
Lemma split_on_jar_read (c : jsstring * jsstring) (j : Jar) :
  jar_readable (c :: j) = true →
  split_on SEMICOLON (jar_read (c :: j))
    = cookie_pair c :: map (λ c, SPACE :: cookie_pair c) j.
Proof.
  revert c. induction j as [| c' j IH]; intros c Hr;
    cbn [jar_readable forallb] in Hr;
    apply andb_prop in Hr as [(_ & _ & Hc & _)%text_ok_spec Hr].
  - cbn [jar_read map]. by apply split_on_no_sep.
  - change (jar_read (c :: c' :: j))
      with (cookie_pair c ++ SEMICOLON :: SPACE :: jar_read (c' :: j)).
    rewrite split_on_app_sep, split_on_cons_ne, (IH c' Hr) by done.
    reflexivity.
Qed.

Lemma jar_read_line (j : Jar) :
  jar_readable j = true →
  Forall (λ c, is_line_terminator c = false) (jar_read j).
Proof.
  induction j as [| c j IH]; intros Hr; [constructor |].
  cbn [jar_readable forallb] in Hr.
  apply andb_prop in Hr as [(_ & _ & _ & Hc)%text_ok_spec Hr].
  destruct j as [| c' j]; [exact Hc |].
  change (jar_read (c :: c' :: j))
    with (cookie_pair c ++ SEMICOLON :: SPACE :: jar_read (c' :: j)).
  apply Forall_app. split; [exact Hc |].
  repeat (constructor; [reflexivity |]). by apply IH.
Qed.

(** What the getter prints for a readable jar is getter-shaped. *)
Lemma jar_read_getter_shaped (j : Jar) :
  jar_readable j = true → getter_shaped (jar_read j) = true.
Proof.
  intros Hr. unfold getter_shaped. apply andb_true_intro. split.
  - destruct j as [| c j]; [reflexivity |].
    rewrite split_on_jar_read by done.
    unfold jar_readable in Hr. rewrite forallb_forall in Hr.
    assert (Hhead : ∀ x, In x (c :: j) → head (cookie_pair x) ≠ Some SPACE
                                         ∧ cookie_pair x ≠ []).
    { intros x Hx. apply Hr, text_ok_spec in Hx. tauto. }
    cbn [forallb]. apply andb_true_intro. split.
    + destruct (Hhead c (or_introl eq_refl)) as [Hh Hne].
      destruct (cookie_pair c) as [| c1 [| c2 t]]; try done. cbn.
      destruct (N.eqb_spec c1 SPACE) as [-> |]; [by destruct Hh | done].
    + apply forallb_forall. intros seg [x [<- Hx]]%in_map_iff.
      destruct (Hhead x (or_intror Hx)) as [Hh Hne].
      destruct (cookie_pair x) as [| c1 t]; [done |]. cbn.
      destruct (N.eqb_spec c1 SPACE) as [-> |]; [by destruct Hh | done].
  - apply forallb_forall. intros c Hc.
    pose proof (jar_read_line j Hr) as Hl. rewrite Forall_forall in Hl.
    apply negb_true_iff, Hl. by apply list_elem_of_In.
Qed.

(** ** Activation and cleanup *)

(** Activation never throws and is silent. *)
Lemma useAntiInspect_effect_run (w : World) :
  useAntiInspect_effect w = (Ok (cleanup_of w), activated w, []).
Proof. reflexivity. Qed.

(** ** The claims *)

(** C4. For an event without [keyCode] (a resize event), [detectDevTools]
    runs the wipe exactly when the outer width exceeds the inner width by
    more than 160 or the outer height exceeds the inner height by more
    than 160, and does nothing exactly when both differences are at most
    160. *)
Theorem resize_classification (w : World) (ev : Event) :
  keyCode ev = VUndefined →
  (detectDevTools (Some ev) w = handleDevToolsOpen w
   ↔ outerWidth w - innerWidth w > 160 ∨ outerHeight w - innerHeight w > 160)
  ∧ (detectDevTools (Some ev) w = (Ok tt, w, [])
     ↔ outerWidth w - innerWidth w ≤ 160
       ∧ outerHeight w - innerHeight w ≤ 160).
Proof.
  intros Hk. rewrite detectDevTools_run. cbn [opt_prop]. rewrite Hk.
  cbn [strict_eq_number]. rewrite orb_false_r.
  destruct (Z.ltb_spec 160 (outerWidth w - innerWidth w));
    destruct (Z.ltb_spec 160 (outerHeight w - innerHeight w));
    cbn [orb]; (split; split);
    try (intros _; lia); try (intros _; reflexivity); try lia;
    try (intros H'; by apply wipe_not_idle in H');
    try (intros H'; symmetry in H'; by apply wipe_not_idle in H').
Qed.

Lemma resize_classification_witness :
  keyCode ResizeEvent = VUndefined
  ∧ (detectDevTools (Some ResizeEvent) host_page = (Ok tt, host_page, [])
     ↔ outerWidth host_page - innerWidth host_page ≤ 160
       ∧ outerHeight host_page - innerHeight host_page ≤ 160).
Proof.
  split; [reflexivity |].
  apply (resize_classification host_page ResizeEvent). reflexivity.
Defined.

Lemma shortcut_KeyDown (code : Z) (ctrl shift : bool) :
  shortcut (KeyDown code ctrl shift) = true
  ↔ (ctrl = true ∧ shift = true ∧ (code = 73 ∨ code = 74 ∨ code = 67))
    ∨ (ctrl = true ∧ code = 85)
    ∨ code = 123.
Proof.
  unfold shortcut, KeyDown. cbn.
  rewrite !orb_true_iff, !andb_true_iff, !orb_true_iff, !Z.eqb_eq.
  tauto.
Qed.

(** C5. For a key press [KeyDown(keyCode, ctrlKey, shiftKey)],
    [disableKeyboardShortcuts] suppresses the default action and runs the
    wipe exactly when ctrl and shift are held with code 73, 74 or 67, or
    ctrl is held with code 85, or the code is 123; otherwise it does
    nothing.  So (73, ctrl, shift), (74, ctrl, shift), (67, ctrl, shift),
    (85, ctrl) and 123 with any modifiers react, and (65) alone does
    not. *)
Theorem keydown_classification (w : World) :
  (∀ (code : Z) (ctrl shift : bool),
     (disableKeyboardShortcuts (Some (KeyDown code ctrl shift)) w
        = suppressed_wipe w
      ↔ (ctrl = true ∧ shift = true ∧ (code = 73 ∨ code = 74 ∨ code = 67))
        ∨ (ctrl = true ∧ code = 85)
        ∨ code = 123)
     ∧ (disableKeyboardShortcuts (Some (KeyDown code ctrl shift)) w
          = (Ok tt, w, [])
        ↔ ¬ ((ctrl = true ∧ shift = true
              ∧ (code = 73 ∨ code = 74 ∨ code = 67))
             ∨ (ctrl = true ∧ code = 85)
             ∨ code = 123)))
  ∧ disableKeyboardShortcuts (Some (KeyDown 73 true true)) w
      = suppressed_wipe w
  ∧ disableKeyboardShortcuts (Some (KeyDown 74 true true)) w
      = suppressed_wipe w
  ∧ disableKeyboardShortcuts (Some (KeyDown 67 true true)) w
      = suppressed_wipe w
  ∧ disableKeyboardShortcuts (Some (KeyDown 85 true false)) w
      = suppressed_wipe w
  ∧ (∀ ctrl shift : bool,
       disableKeyboardShortcuts (Some (KeyDown 123 ctrl shift)) w
         = suppressed_wipe w)
  ∧ disableKeyboardShortcuts (Some (KeyDown 65 false false)) w
      = (Ok tt, w, []).
Proof.
  split.
  - intros code ctrl shift. rewrite <- shortcut_KeyDown.
    rewrite disableKeyboardShortcuts_run.
    destruct (shortcut (KeyDown code ctrl shift)); split; split;
      try done; intros H.
    + by apply suppressed_wipe_not_idle in H.
    + symmetry in H. by apply suppressed_wipe_not_idle in H.
  - repeat split; try intros [] []; by rewrite disableKeyboardShortcuts_run.
Qed.

(** C6. [disableRightClick] reads nothing of its event: for every event
    it suppresses the default action and then runs the wipe.  So does
    [disableKeyboardShortcuts] for every key press that it classifies as
    suspicious: the run is the run of the wipe with [EPreventDefault] in
    front of the wipe's trace, so the default action is suppressed
    before the first effect of the wipe.  On no event does the key
    handler wipe without having suppressed the default action first. *)
Theorem default_suppressed_before_wipe (w : World) (ev : Event) :
  ∃ r w' t,
    handleDevToolsOpen w = (r, w', t)
    ∧ disableRightClick (Some ev) w = (r, w', EPreventDefault :: t)
    ∧ (∀ (code : Z) (ctrl shift : bool),
         (ctrl = true ∧ shift = true ∧ (code = 73 ∨ code = 74 ∨ code = 67))
         ∨ (ctrl = true ∧ code = 85)
         ∨ code = 123 →
         disableKeyboardShortcuts (Some (KeyDown code ctrl shift)) w
           = (r, w', EPreventDefault :: t))
    ∧ (shortcut ev = true →
       disableKeyboardShortcuts (Some ev) w = (r, w', EPreventDefault :: t))
    ∧ (disableKeyboardShortcuts (Some ev) w = (r, w', EPreventDefault :: t)
       ∨ disableKeyboardShortcuts (Some ev) w = (Ok tt, w, []))
    ∧ disableRightClick (Some ev) w ≠ (Ok tt, w, []).
Proof.
  pose proof (suppressed_wipe_not_idle w w) as Hidle.
  rewrite disableRightClick_run, (disableKeyboardShortcuts_run ev).
  unfold suppressed_wipe in *.
  destruct (handleDevToolsOpen w) as [[r w'] t] eqn:Hw.
  exists r, w', t. split; [reflexivity |]. split; [reflexivity |].
  split; [| split; [| split; [| exact Hidle]]].
  - intros code ctrl shift Hc%shortcut_KeyDown.
    rewrite disableKeyboardShortcuts_run, Hc. unfold suppressed_wipe.
    by rewrite Hw.
  - by intros ->.
  - destruct (shortcut ev); auto.
Qed.

Lemma default_suppressed_before_wipe_witness :
  (true = true ∧ true = true ∧ (73 = 73 ∨ 73 = 74 ∨ 73 = 67)
   ∨ true = true ∧ 73 = 85 ∨ 73 = 123)
  ∧ disableKeyboardShortcuts (Some (KeyDown 73 true true)) host_page
    = (Ok tt,
       wiped [(js "a", js "1"); (js "b", js "2")] host_page,
       EPreventDefault :: EClear LocalArea :: EClear SessionArea
         :: map ECookieAssign (cookie_assignments (js "a=1; b=2"))).
Proof.
  assert (Hc : true = true ∧ true = true ∧ (73 = 73 ∨ 73 = 74 ∨ 73 = 67)
               ∨ true = true ∧ 73 = 85 ∨ 73 = 123)
    by (left; repeat split; by left).
  split; [exact Hc |].
  destruct (default_suppressed_before_wipe host_page ResizeEvent)
    as (r & w' & t & Hw & _ & Hkey & _).
  rewrite (Hkey 73 true true Hc).
  rewrite handleDevToolsOpen_run in Hw. cbn in Hw.
  by injection Hw as <- <- <-.
Defined.

(** C7. An event with [keyCode] 123 makes [detectDevTools] run the wipe
    whatever the geometry and the modifiers are; it is the same wipe that
    [disableKeyboardShortcuts] runs for that event, there after the
    suppression of the default action. *)
Theorem resize_handler_F12 (w : World) (ev : Event) :
  keyCode ev = VNumber 123 →
  ∃ r w' t,
    handleDevToolsOpen w = (r, w', t)
    ∧ detectDevTools (Some ev) w = (r, w', t)
    ∧ disableKeyboardShortcuts (Some ev) w = (r, w', EPreventDefault :: t).
Proof.
  intros Hk.
  rewrite detectDevTools_run, disableKeyboardShortcuts_run.
  unfold shortcut, suppressed_wipe. cbn [opt_prop]. rewrite Hk.
  cbn [strict_eq_number]. change (123 =? 123) with true.
  rewrite !orb_true_r.
  destruct (handleDevToolsOpen w) as [[r w'] t]. by exists r, w', t.
Qed.

Lemma resize_handler_F12_witness :
  keyCode (KeyDown 123 false false) = VNumber 123
  ∧ outerWidth host_page - innerWidth host_page ≤ 160
  ∧ outerHeight host_page - innerHeight host_page ≤ 160
  ∧ ∃ r w' t,
      handleDevToolsOpen host_page = (r, w', t)
      ∧ detectDevTools (Some (KeyDown 123 false false)) host_page
          = (r, w', t)
      ∧ disableKeyboardShortcuts (Some (KeyDown 123 false false)) host_page
          = (r, w', EPreventDefault :: t).
Proof.
  split; [reflexivity |]. split; [cbn; lia |]. split; [cbn; lia |].
  apply (resize_handler_F12 host_page (KeyDown 123 false false)).
  reflexivity.
Defined.

Lemma detectDevTools_undefined_throws :
  detectDevTools None denied_docked_page
    = (Throw SecurityError, denied_docked_page, [])
  ∧ ¬ spec_detectDevTools_never_throws denied_docked_page.
Proof.
  assert (H : detectDevTools None denied_docked_page
              = (Throw SecurityError, denied_docked_page, [])).
  { rewrite detectDevTools_run. cbn [denied_docked_page outerWidth
      innerWidth outerHeight innerHeight opt_prop strict_eq_number].
    change (160 <? 1500 - 1000) with true. cbn [orb].
    by rewrite handleDevToolsOpen_run. }
  split; [exact H |].
  intros (w' & t & H'). rewrite H in H'. discriminate.
Qed.

(** C10, amended. Called without an event, [detectDevTools] never throws
    on account of the missing event: it runs the wipe exactly when one of
    the two geometry thresholds is exceeded and does nothing otherwise.
    An exception can only be the wipe's own [SecurityError]; where the
    three surfaces are there, the handler returns normally. *)
Theorem detectDevTools_undefined (w : World) :
  (detectDevTools None w = handleDevToolsOpen w
   ↔ outerWidth w - innerWidth w > 160 ∨ outerHeight w - innerHeight w > 160)
  ∧ (detectDevTools None w = (Ok tt, w, [])
     ↔ outerWidth w - innerWidth w ≤ 160
       ∧ outerHeight w - innerHeight w ≤ 160)
  ∧ (∀ e w' t,
       detectDevTools None w = (Throw e, w', t) →
       e = SecurityError ∧ handleDevToolsOpen w = (Throw e, w', t))
  ∧ (is_Some (localStorage w) → is_Some (sessionStorage w) →
     is_Some (cookieJar w) →
     ∃ w' t, detectDevTools None w = (Ok tt, w', t)).
Proof.
  rewrite detectDevTools_run. cbn [opt_prop strict_eq_number].
  rewrite orb_false_r.
  assert (Hthrow : ∀ e w' t,
            handleDevToolsOpen w = (Throw e, w', t) → e = SecurityError).
  { intros e w' t. rewrite handleDevToolsOpen_run.
    destruct (localStorage w), (sessionStorage w), (cookieJar w);
      congruence. }
  assert (Hok : is_Some (localStorage w) → is_Some (sessionStorage w) →
                is_Some (cookieJar w) →
                ∃ w' t, handleDevToolsOpen w = (Ok tt, w', t)).
  { intros [l Hl] [s Hs] [j Hj]. rewrite handleDevToolsOpen_run, Hl, Hs, Hj.
    by eexists _, _. }
  destruct (Z.ltb_spec 160 (outerWidth w - innerWidth w));
    destruct (Z.ltb_spec 160 (outerHeight w - innerHeight w));
    cbn [orb].
  4: { split; [| split; [| split]].
       - split; [| lia]. intros H'. symmetry in H'.
         by apply wipe_not_idle in H'.
       - split; [lia | done].
       - intros e w' t [=].
       - intros _ _ _. by eexists _, _. }
  all: split; [| split; [| split]];
    [ split; [lia | done]
    | split; [| lia]; intros H'; by apply wipe_not_idle in H'
    | intros e w' t H'; split; [by eapply Hthrow | done]
    | exact Hok ].
Qed.

Lemma detectDevTools_undefined_witness :
  is_Some (localStorage host_page) ∧ is_Some (sessionStorage host_page)
  ∧ is_Some (cookieJar host_page)
  ∧ ∃ w' t, detectDevTools None host_page = (Ok tt, w', t).
Proof.
  assert (Hl : is_Some (localStorage host_page)) by (by eexists).
  assert (Hs : is_Some (sessionStorage host_page)) by (by eexists).
  assert (Hj : is_Some (cookieJar host_page)) by (by eexists).
  split; [exact Hl |]. split; [exact Hs |]. split; [exact Hj |].
  exact (proj2 (proj2 (proj2 (detectDevTools_undefined host_page))) Hl Hs Hj).
Defined.

Lemma cleanup_cleaned (c : Cleanup) (w : World) :
  cleanup c w = (Ok tt, cleaned c w, []).
Proof. reflexivity. Qed.

Lemma filter_ne_id (x : Listener) (ls : list Listener) :
  x ∉ ls → filter (λ y, y ≠ x) ls = ls.
Proof.
  induction ls as [| y ls IH]; intros Hx; [done |].
  apply not_elem_of_cons in Hx as [Hy Hx].
  rewrite filter_cons, decide_True by done. by rewrite IH.
Qed.

Lemma without_listeners_gone (c : Cleanup) (ls : list Listener) :
  ({| l_target := Window; l_type := "resize";
      l_callback := the_detectDevTools c |} ∉ without_listeners c ls)
  ∧ ({| l_target := Document; l_type := "contextmenu";
        l_callback := the_disableRightClick c |} ∉ without_listeners c ls)
  ∧ ({| l_target := Document; l_type := "keydown";
        l_callback := the_disableKeyboardShortcuts c |}
     ∉ without_listeners c ls).
Proof.
  unfold without_listeners. rewrite !list_elem_of_filter. repeat split.
  - by intros (_ & _ & Hne & _).
  - by intros (_ & Hne & _).
  - by intros (Hne & _).
Qed.

Lemma without_listeners_idem (c : Cleanup) (ls : list Listener) :
  without_listeners c (without_listeners c ls) = without_listeners c ls.
Proof.
  destruct (without_listeners_gone c ls) as (H1 & H2 & H3).
  unfold without_listeners at 1.
  by rewrite (filter_ne_id _ _ H1), (filter_ne_id _ _ H2),
    (filter_ne_id _ _ H3).
Qed.

(** After activation and cleanup, whatever the page: [log] is back, the
    other four slots still hold the empty functions of the activation. *)
Lemma console_after_cleanup (w : World) :
  console (cleaned (cleanup_of w) (activated w)) =
    {| console_log := console_log (console w);
       console_warn := EmptyFn (5 + next_id w);
       console_error := EmptyFn (6 + next_id w);
       console_debug := EmptyFn (7 + next_id w);
       console_info := EmptyFn (8 + next_id w) |}.
Proof. reflexivity. Qed.

(** Between activation and cleanup the five slots are silent. *)
Lemma console_silent_while_active (w : World) (s : Slot) :
  console_call s (activated w) = (Ok tt, activated w, []).
Proof. unfold console_call. rewrite bind_get. by destruct s. Qed.

(** C1. On a page whose five console slots hold the host's functions:
    between activation and cleanup all five slots are silent, and after
    the cleanup [log] is the function it was; but [warn], [error],
    [debug] and [info] are not: they still hold the empty functions, and
    [console.warn()], which printed before activation, prints nothing
    after the cleanup. *)
Theorem cleanup_restores_only_log :
  ∃ c w1 w2,
    useAntiInspect_effect host_page = (Ok c, w1, [])
    ∧ (∀ s, console_call s w1 = (Ok tt, w1, []))
    ∧ cleanup c w1 = (Ok tt, w2, [])
    ∧ console_log (console w2) = console_log (console host_page)
    ∧ console_warn (console w2) ≠ console_warn (console host_page)
    ∧ console_error (console w2) ≠ console_error (console host_page)
    ∧ console_debug (console w2) ≠ console_debug (console host_page)
    ∧ console_info (console w2) ≠ console_info (console host_page)
    ∧ console_call SWarn host_page = (Ok tt, host_page, [EOutput "warn"])
    ∧ console_call SWarn w2 = (Ok tt, w2, []).
Proof.
  exists (cleanup_of host_page), (activated host_page),
    (cleaned (cleanup_of host_page) (activated host_page)).
  split; [apply useAntiInspect_effect_run |].
  split; [apply console_silent_while_active |].
  split; [apply cleanup_cleaned |].
  rewrite console_after_cleanup.
  repeat split; discriminate.
Qed.

(** C2, counterexample. Where [localStorage] throws, the wipe stops at
    once: session storage is not cleared and no cookie is assigned. *)
Lemma wipe_not_independent :
  handleDevToolsOpen local_denied_page
    = (Throw SecurityError, local_denied_page, [])
  ∧ ¬ spec_wipe_independent local_denied_page.
Proof.
  assert (H : handleDevToolsOpen local_denied_page
              = (Throw SecurityError, local_denied_page, []))
    by (by rewrite handleDevToolsOpen_run).
  split; [exact H |].
  unfold spec_wipe_independent. rewrite H. intros (_ & Hs & _).
  assert (Hin : EClear SessionArea ∈ @nil Effect) by (apply Hs; by eexists).
  by apply elem_of_nil in Hin.
Qed.

(** C2, amended. The wipe has no containment: its sub-operations run in
    the order local clear, session clear, cookie expiry, and the first
    surface that throws ends it with that exception, the earlier
    sub-operations done and the later ones not attempted.  Where no
    surface throws all three complete. *)
Theorem wipe_stops_at_first_throw (w : World) :
  (localStorage w = None →
   handleDevToolsOpen w = (Throw SecurityError, w, []))
  ∧ (is_Some (localStorage w) → sessionStorage w = None →
     handleDevToolsOpen w
       = (Throw SecurityError, set_localStorage (Some ∅) w,
          [EClear LocalArea]))
  ∧ (is_Some (localStorage w) → is_Some (sessionStorage w) →
     cookieJar w = None →
     handleDevToolsOpen w
       = (Throw SecurityError,
          set_sessionStorage (Some ∅) (set_localStorage (Some ∅) w),
          [EClear LocalArea; EClear SessionArea]))
  ∧ (is_Some (localStorage w) → is_Some (sessionStorage w) →
     ∀ j, cookieJar w = Some j →
       handleDevToolsOpen w
         = (Ok tt, wiped j w,
            EClear LocalArea :: EClear SessionArea
              :: map ECookieAssign (cookie_assignments (jar_read j)))).
Proof.
  rewrite handleDevToolsOpen_run. repeat split.
  - by intros ->.
  - by intros [l ->] ->.
  - by intros [l ->] [s ->] ->.
  - by intros [l ->] [s ->] j ->.
Qed.

Lemma wipe_stops_at_first_throw_witness :
  localStorage local_denied_page = None
  ∧ handleDevToolsOpen local_denied_page
      = (Throw SecurityError, local_denied_page, []).
Proof.
  split; [reflexivity |].
  apply (proj1 (wipe_stops_at_first_throw local_denied_page)). reflexivity.
Defined.



(** C8. On a page that holds a cookie without a name (the cookie string
    is [foo]) the wipe returns normally and empties both storage areas,
    but the segment [foo] has no [=], so the assignment is [foo] itself,
    without an expiry: the cookie is stored again and is still there
    after the wipe.  A second wipe returns normally and leaves that
    state as it is. *)
Theorem wipe_keeps_nameless_cookie :
  ∃ w1,
    jar_read [([], js "foo")] = js "foo"
    ∧ handleDevToolsOpen nameless_cookie_page
      = (Ok tt, w1,
         [EClear LocalArea; EClear SessionArea; ECookieAssign (js "foo")])
    ∧ localStorage w1 = Some ∅
    ∧ sessionStorage w1 = Some ∅
    ∧ cookieJar w1 = Some [([], js "foo")]
    ∧ cookieJar w1 ≠ Some []
    ∧ handleDevToolsOpen w1
      = (Ok tt, w1,
         [EClear LocalArea; EClear SessionArea; ECookieAssign (js "foo")]).
Proof.
  exists (wiped [([], js "foo")] nameless_cookie_page).
  split; [reflexivity |].
  split; [by rewrite handleDevToolsOpen_run |].
  split; [reflexivity |]. split; [reflexivity |].
  split; [reflexivity |]. split; [discriminate |].
  by rewrite handleDevToolsOpen_run.
Qed.

(** C9. For every cleanup closure and every page: the cleanup returns
    normally and silently, after it none of its three listeners is
    registered, and a second call returns normally and leaves the page,
    console included, exactly as the first call left it. *)
Theorem cleanup_twice (c : Cleanup) (w : World) :
  ∃ w2,
    cleanup c w = (Ok tt, w2, [])
    ∧ cleanup c w2 = (Ok tt, w2, [])
    ∧ ({| l_target := Window; l_type := "resize";
          l_callback := the_detectDevTools c |} ∉ listeners w2)
    ∧ ({| l_target := Document; l_type := "contextmenu";
          l_callback := the_disableRightClick c |} ∉ listeners w2)
    ∧ ({| l_target := Document; l_type := "keydown";
          l_callback := the_disableKeyboardShortcuts c |} ∉ listeners w2).
Proof.
  exists (cleaned c w). split; [apply cleanup_cleaned |]. split.
  - rewrite cleanup_cleaned. unfold cleaned at 1.
    cbn [cleaned listeners console set_console set_listeners].
    rewrite without_listeners_idem. reflexivity.
  - apply without_listeners_gone.
Qed.

(** * Further properties *)

(** ** Handlers called without an event *)

Lemma disableRightClick_undefined (w : World) :
  disableRightClick None w = (Throw TypeError, w, []).
Proof. reflexivity. Qed.

Lemma disableKeyboardShortcuts_undefined (w : World) :
  disableKeyboardShortcuts None w = (Throw TypeError, w, []).
Proof. reflexivity. Qed.

(** X1. Unlike [detectDevTools], the two other handlers need their
    event: called without one, [disableRightClick] and
    [disableKeyboardShortcuts] throw a [TypeError] at their first access,
    before anything is suppressed or wiped, while [detectDevTools] on the
    same page either runs the wipe or returns. *)
Theorem handlers_need_event (w : World) :
  disableRightClick None w = (Throw TypeError, w, [])
  ∧ disableKeyboardShortcuts None w = (Throw TypeError, w, [])
  ∧ (detectDevTools None w = handleDevToolsOpen w
     ∨ detectDevTools None w = (Ok tt, w, []))
  ∧ detectDevTools None w ≠ (Throw TypeError, w, []).
Proof.
  split; [apply disableRightClick_undefined |].
  split; [apply disableKeyboardShortcuts_undefined |].
  rewrite detectDevTools_run.
  destruct ((160 <? outerWidth w - innerWidth w)
            || (160 <? outerHeight w - innerHeight w)
            || strict_eq_number (opt_prop keyCode None) 123).
  - split; [by left |]. rewrite handleDevToolsOpen_run.
    destruct (localStorage w), (sessionStorage w), (cookieJar w);
      discriminate.
  - split; [by right | discriminate].
Qed.

(** ** The frame of the wipe *)

Lemma same_frame_refl (w : World) : same_frame w w.
Proof. by repeat split. Qed.

Lemma handleDevToolsOpen_frame (w : World) :
  same_frame w (handleDevToolsOpen w).1.2.
Proof.
  rewrite handleDevToolsOpen_run.
  destruct (localStorage w) as [l|] eqn:Hl;
    [destruct (sessionStorage w) as [s|] eqn:Hs;
       [destruct (cookieJar w) as [j|] eqn:Hj |] |];
    unfold same_frame, wiped; cbn;
    rewrite ?Hl, ?Hs, ?Hj; repeat split; by eauto.
Qed.

Lemma suppressed_wipe_frame (w : World) : same_frame w (suppressed_wipe w).1.2.
Proof.
  pose proof (handleDevToolsOpen_frame w) as H. unfold suppressed_wipe.
  by destruct (handleDevToolsOpen w) as [[r w'] t].
Qed.

Lemma handlers_frame_aux (w : World) (e : option Event) :
  same_frame w (detectDevTools e w).1.2
  ∧ same_frame w (disableRightClick e w).1.2
  ∧ same_frame w (disableKeyboardShortcuts e w).1.2.
Proof.
  split; [| split].
  - rewrite detectDevTools_run.
    match goal with |- context [if ?c then _ else _] => destruct c end;
      [apply handleDevToolsOpen_frame | apply same_frame_refl].
  - destruct e as [ev|].
    + rewrite disableRightClick_run. apply suppressed_wipe_frame.
    + rewrite disableRightClick_undefined. apply same_frame_refl.
  - destruct e as [ev|].
    + rewrite disableKeyboardShortcuts_run.
      destruct (shortcut ev);
        [apply suppressed_wipe_frame | apply same_frame_refl].
    + rewrite disableKeyboardShortcuts_undefined. apply same_frame_refl.
Qed.

(** X2. The wipe and the three handlers, for every argument and whatever
    their outcome, change nothing but the contents of the storage areas
    and of the cookie jar: geometry, console slots and listeners are as
    before, and no surface appears or disappears. *)
Theorem handlers_keep_frame (w : World) (e : option Event) :
  same_frame w (handleDevToolsOpen w).1.2
  ∧ same_frame w (detectDevTools e w).1.2
  ∧ same_frame w (disableRightClick e w).1.2
  ∧ same_frame w (disableKeyboardShortcuts e w).1.2.
Proof.
  split; [apply handleDevToolsOpen_frame | apply handlers_frame_aux].
Qed.

(** ** Listeners *)

Lemma register_absent (l : Listener) (ls : list Listener) :
  l ∉ ls → register l ls = ls ++ [l].
Proof. intros H. unfold register. by rewrite bool_decide_eq_false_2. Qed.

Lemma register_present (l : Listener) (ls : list Listener) :
  l ∈ ls → register l ls = ls.
Proof. intros H. unfold register. by rewrite bool_decide_eq_true_2. Qed.

Lemma elem_of_register (l x : Listener) (ls : list Listener) :
  x ∈ register l ls ↔ x ∈ ls ∨ x = l.
Proof.
  destruct (decide (l ∈ ls)) as [Hin | Hin].
  - rewrite register_present by done. split; [by left |].
    by intros [? | ->].
  - rewrite register_absent, elem_of_app, list_elem_of_singleton by done.
    done.
Qed.

Lemma listeners_activated (w : World) :
  listeners (activated w) =
    register {| l_target := Document; l_type := "keydown";
                l_callback := the_disableKeyboardShortcuts (cleanup_of w) |}
      (register {| l_target := Document; l_type := "contextmenu";
                   l_callback := the_disableRightClick (cleanup_of w) |}
         (register {| l_target := Window; l_type := "resize";
                      l_callback := the_detectDevTools (cleanup_of w) |}
            (listeners w))).
Proof. reflexivity. Qed.

(** A closure created now is not among the callbacks of a fresh page. *)
Lemma fresh_not_registered (w : World) (tg : Target) (ty : string)
    (k : HandlerKind) (d : nat) :
  listeners_fresh w = true →
  {| l_target := tg; l_type := ty; l_callback := HookFn k (d + next_id w) |}
    ∉ listeners w.
Proof.
  unfold listeners_fresh. rewrite forallb_forall.
  intros Hall Hin%list_elem_of_In. apply Hall in Hin. cbn in Hin.
  apply Nat.ltb_lt in Hin. lia.
Qed.

Lemma listeners_activated_fresh (w : World) :
  listeners_fresh w = true →
  listeners (activated w) = listeners w ++ the_listeners (cleanup_of w).
Proof.
  intros Hf. rewrite listeners_activated.
  pose proof (fresh_not_registered w Window "resize" DetectDevTools 0 Hf)
    as H1.
  pose proof (fresh_not_registered w Document "contextmenu"
                DisableRightClick 1 Hf) as H2.
  pose proof (fresh_not_registered w Document "keydown"
                DisableKeyboardShortcuts 2 Hf) as H3.
  change (0 + next_id w)%nat with (next_id w) in H1.
  unfold cleanup_of, the_listeners. cbn [the_detectDevTools
    the_disableRightClick the_disableKeyboardShortcuts].
  rewrite (register_absent _ (listeners w) H1).
  rewrite (register_absent _ (listeners w ++ [_])).
  2: { rewrite elem_of_app, list_elem_of_singleton. intros [? | ?]; done. }
  rewrite (register_absent _ ((listeners w ++ [_]) ++ [_])).
  2: { rewrite !elem_of_app, !list_elem_of_singleton.
       intros [[? | ?] | ?]; done. }
  by rewrite <- !app_assoc.
Qed.

Lemma filter_ne_app_own (x : Listener) (ls tl : list Listener) :
  x ∉ ls →
  filter (λ y, y ≠ x) (ls ++ x :: tl) = ls ++ filter (λ y, y ≠ x) tl.
Proof.
  intros Hx. rewrite filter_app, filter_ne_id by done. f_equal.
  rewrite filter_cons, decide_False; [done |]. by intros H.
Qed.

Lemma without_listeners_own (c : Cleanup) (ls : list Listener) :
  Forall (λ l, l ∉ ls) (the_listeners c) →
  without_listeners c (ls ++ the_listeners c) = ls.
Proof.
  unfold the_listeners. intros H.
  apply Forall_cons in H as [H1 H]. apply Forall_cons in H as [H2 H].
  apply Forall_cons in H as [H3 _].
  unfold without_listeners.
  rewrite filter_ne_app_own by done.
  rewrite !filter_cons, !decide_True, filter_nil by done.
  rewrite (filter_ne_app_own _ ls) by done.
  rewrite !filter_cons, !decide_True, filter_nil by done.
  rewrite (filter_ne_app_own _ ls) by done.
  by rewrite filter_nil, app_nil_r.
Qed.

(** X3. On a page where every registered callback exists already,
    activation appends exactly three listeners to the ones that are
    there, in the order resize on the window, contextmenu on the
    document, keydown on the document; it is silent and returns
    normally. *)
Theorem activation_appends_listeners (w w1 : World)
    (r : Outcome Cleanup) (t : list Effect) :
  listeners_fresh w = true →
  useAntiInspect_effect w = (r, w1, t) →
  r = Ok (cleanup_of w) ∧ t = []
  ∧ listeners w1 =
      listeners w
      ++ [ {| l_target := Window; l_type := "resize";
              l_callback := HookFn DetectDevTools (next_id w) |};
           {| l_target := Document; l_type := "contextmenu";
              l_callback := HookFn DisableRightClick (1 + next_id w) |};
           {| l_target := Document; l_type := "keydown";
              l_callback :=
                HookFn DisableKeyboardShortcuts (2 + next_id w) |} ].
Proof.
  intros Hf. rewrite useAntiInspect_effect_run. intros [= <- <- <-].
  repeat split. by rewrite listeners_activated_fresh.
Qed.

Lemma activation_appends_listeners_witness :
  listeners_fresh (activated host_page) = true
  ∧ listeners (activated (activated host_page)) =
      listeners (activated host_page)
      ++ [ {| l_target := Window; l_type := "resize";
              l_callback := HookFn DetectDevTools 9 |};
           {| l_target := Document; l_type := "contextmenu";
              l_callback := HookFn DisableRightClick 10 |};
           {| l_target := Document; l_type := "keydown";
              l_callback := HookFn DisableKeyboardShortcuts 11 |} ].
Proof.
  assert (Hf : listeners_fresh (activated host_page) = true)
    by reflexivity.
  split; [exact Hf |].
  exact (proj2 (proj2
    (activation_appends_listeners (activated host_page)
       (activated (activated host_page))
       (Ok (cleanup_of (activated host_page))) [] Hf eq_refl))).
Defined.

Lemma the_listeners_fresh (w : World) :
  listeners_fresh w = true →
  Forall (λ l, l ∉ listeners w) (the_listeners (cleanup_of w)).
Proof.
  intros Hf. repeat constructor.
  - apply (fresh_not_registered w Window "resize" DetectDevTools 0 Hf).
  - apply (fresh_not_registered w Document "contextmenu"
             DisableRightClick 1 Hf).
  - apply (fresh_not_registered w Document "keydown"
             DisableKeyboardShortcuts 2 Hf).
Qed.

(** X4. Activation followed by its cleanup is a round trip for
    everything but four console slots: on a page where every registered
    callback exists already, the listeners are again exactly the ones
    from before activation, [console.log] is the function it was, and
    geometry, storage areas and cookies were never touched; both steps
    return normally and are silent. *)
Theorem activation_cleanup_round_trip (w w1 w2 : World) (c : Cleanup)
    (r : Outcome unit) (t1 t2 : list Effect) :
  listeners_fresh w = true →
  useAntiInspect_effect w = (Ok c, w1, t1) →
  cleanup c w1 = (r, w2, t2) →
  r = Ok tt ∧ t1 = [] ∧ t2 = []
  ∧ listeners w2 = listeners w
  ∧ console_log (console w2) = console_log (console w)
  ∧ same_data w w1 ∧ same_data w w2.
Proof.
  intros Hf. rewrite useAntiInspect_effect_run. intros [= <- <- <-].
  rewrite cleanup_cleaned. intros [= <- <- <-].
  repeat split.
  change (listeners (cleaned (cleanup_of w) (activated w)))
    with (without_listeners (cleanup_of w) (listeners (activated w))).
  rewrite listeners_activated_fresh by done.
  by apply without_listeners_own, the_listeners_fresh.
Qed.

Lemma activation_cleanup_round_trip_witness :
  listeners_fresh (activated host_page) = true
  ∧ listeners (cleaned (cleanup_of (activated host_page))
                 (activated (activated host_page)))
    = listeners (activated host_page).
Proof.
  assert (Hf : listeners_fresh (activated host_page) = true)
    by reflexivity.
  split; [exact Hf |].
  exact (proj1 (proj2 (proj2 (proj2
    (activation_cleanup_round_trip (activated host_page)
       (activated (activated host_page))
       (cleaned (cleanup_of (activated host_page))
          (activated (activated host_page)))
       (cleanup_of (activated host_page)) (Ok tt) [] []
       Hf eq_refl eq_refl))))).
Defined.

Lemma elem_of_without_listeners (c : Cleanup) (ls : list Listener)
    (l : Listener) :
  l ∈ without_listeners c ls ↔ l ∈ ls ∧ l ∉ the_listeners c.
Proof.
  unfold without_listeners, the_listeners.
  rewrite !list_elem_of_filter, !not_elem_of_cons. 
  split; [intros (? & ? & ? & ?) | intros (? & ? & ? & ? & _)];
    repeat split; try done. apply not_elem_of_nil.
Qed.

(** X5. Whatever closure and page: the cleanup removes the three
    listeners of its own closure and no other; the listeners that remain
    keep their order; and geometry, storage areas, cookies and the
    console slots other than [log] are as before. *)
Theorem cleanup_removes_only_its_listeners (c : Cleanup) (w : World) :
  ∃ w2,
    cleanup c w = (Ok tt, w2, [])
    ∧ (∀ l, l ∈ listeners w2 ↔ l ∈ listeners w ∧ l ∉ the_listeners c)
    ∧ listeners w2 `sublist_of` listeners w
    ∧ same_data w w2
    ∧ console_warn (console w2) = console_warn (console w)
    ∧ console_error (console w2) = console_error (console w)
    ∧ console_debug (console w2) = console_debug (console w)
    ∧ console_info (console w2) = console_info (console w).
Proof.
  exists (cleaned c w). split; [apply cleanup_cleaned |].
  split; [intros l; apply elem_of_without_listeners |].
  split; [| by repeat split].
  change (listeners (cleaned c w))
    with (without_listeners c (listeners w)).
  unfold without_listeners.
  etrans; [apply sublist_filter |]. etrans; apply sublist_filter.
Qed.

(** ** Two activations on one page *)

(** X6. When the hook is activated twice on a page, the order of the two
    cleanups decides what becomes of [console.log].  Cleanups in the
    reverse order of the activations give it back; cleanups in the order
    of the activations leave it as the empty function of the first
    activation, because the second activation saved that function as its
    original, so [console.log()] stays silent after both cleanups. *)
Theorem nested_cleanup_order (w : World) :
  ∃ c1 w1 c2 w2,
    useAntiInspect_effect w = (Ok c1, w1, [])
    ∧ useAntiInspect_effect w1 = (Ok c2, w2, [])
    ∧ (∃ w3 w4,
         cleanup c2 w2 = (Ok tt, w3, [])
         ∧ cleanup c1 w3 = (Ok tt, w4, [])
         ∧ console_log (console w4) = console_log (console w))
    ∧ (∃ w3 w4,
         cleanup c1 w2 = (Ok tt, w3, [])
         ∧ cleanup c2 w3 = (Ok tt, w4, [])
         ∧ console_log (console w4) = EmptyFn (4 + next_id w)
         ∧ console_call SLog w4 = (Ok tt, w4, [])).
Proof.
  exists (cleanup_of w), (activated w), (cleanup_of (activated w)),
    (activated (activated w)).
  split; [apply useAntiInspect_effect_run |].
  split; [apply useAntiInspect_effect_run |]. split.
  - exists (cleaned (cleanup_of (activated w)) (activated (activated w))).
    eexists. rewrite !cleanup_cleaned. by repeat split.
  - exists (cleaned (cleanup_of w) (activated (activated w))).
    eexists. rewrite !cleanup_cleaned. by repeat split.
Qed.

(** X7. The handlers of two activations are different function objects:
    the cleanup of the first activation leaves the three listeners of the
    second one registered. *)
Theorem cleanup_spares_other_activation (w : World) :
  ∃ c1 w1 c2 w2 w3,
    useAntiInspect_effect w = (Ok c1, w1, [])
    ∧ useAntiInspect_effect w1 = (Ok c2, w2, [])
    ∧ cleanup c1 w2 = (Ok tt, w3, [])
    ∧ Forall (λ l, l ∈ listeners w3) (the_listeners c2)
    ∧ Forall (λ l, l ∉ listeners w3) (the_listeners c1).
Proof.
  exists (cleanup_of w), (activated w), (cleanup_of (activated w)),
    (activated (activated w)),
    (cleaned (cleanup_of w) (activated (activated w))).
  split; [apply useAntiInspect_effect_run |].
  split; [apply useAntiInspect_effect_run |].
  split; [apply cleanup_cleaned |].
  change (listeners (cleaned (cleanup_of w) (activated (activated w))))
    with (without_listeners (cleanup_of w)
            (listeners (activated (activated w)))).
  split.
  - rewrite listeners_activated.
    assert (Hne : ∀ l, l ∈ the_listeners (cleanup_of (activated w)) →
                       l ∉ the_listeners (cleanup_of w)).
    { intros l. unfold the_listeners, cleanup_of.
      cbn [the_detectDevTools the_disableRightClick
           the_disableKeyboardShortcuts next_id activated set_console
           set_next_id].
      rewrite !elem_of_cons.
      intros [-> | [-> | [-> | []%elem_of_nil]]]
        [H | [H | [H | []%elem_of_nil]]];
        inversion H; lia. }
    apply Forall_forall. intros l Hl.
    apply elem_of_without_listeners. split; [| by apply Hne].
    unfold the_listeners in Hl. rewrite !elem_of_cons in Hl.
    rewrite !elem_of_register.
    destruct Hl as [-> | [-> | [-> | []%elem_of_nil]]]; auto.
  - apply Forall_forall. intros l Hl [_ Hn]%elem_of_without_listeners.
    done.
Qed.

(** ** The four slots without a restore *)

Lemma four_silenced_frame (w w' : World) :
  same_frame w w' → four_silenced w' = four_silenced w.
Proof. intros (_ & _ & _ & _ & Hc & _). unfold four_silenced. by rewrite Hc. Qed.

(** X8. From the first activation on, [console.warn], [console.error],
    [console.debug] and [console.info] hold empty functions for good:
    activation puts them there on every page, and once they are there
    neither a cleanup (of any closure), nor another activation, nor the
    wipe, nor any handler run takes them away. *)
Theorem four_slots_stay_silenced (w : World) :
  four_silenced (useAntiInspect_effect w).1.2 = true
  ∧ (four_silenced w = true →
     (∀ c, four_silenced (cleanup c w).1.2 = true)
     ∧ four_silenced (handleDevToolsOpen w).1.2 = true
     ∧ (∀ e, four_silenced (detectDevTools e w).1.2 = true)
     ∧ (∀ e, four_silenced (disableRightClick e w).1.2 = true)
     ∧ (∀ e, four_silenced (disableKeyboardShortcuts e w).1.2 = true)
     ∧ (∀ s, s ≠ SLog → console_call s w = (Ok tt, w, []))).
Proof.
  split; [reflexivity |]. intros Hs.
  split; [intros c; rewrite cleanup_cleaned; exact Hs |].
  split; [by rewrite (four_silenced_frame w);
            [| apply handleDevToolsOpen_frame] |].
  split; [intros e; rewrite (four_silenced_frame w); [done |];
            apply (proj1 (handlers_frame_aux w e)) |].
  split; [intros e; rewrite (four_silenced_frame w); [done |];
            apply (proj1 (proj2 (handlers_frame_aux w e))) |].
  split; [intros e; rewrite (four_silenced_frame w); [done |];
            apply (proj2 (proj2 (handlers_frame_aux w e))) |].
  intros s Hne. unfold console_call. rewrite bind_get.
  unfold four_silenced in Hs. repeat apply andb_prop in Hs as [Hs ?].
  destruct s; [done | ..]; cbn [slot_get];
    match goal with
    | |- call ?f _ = _ => destruct f; try done
    end.
Qed.

Lemma four_slots_stay_silenced_witness :
  four_silenced (activated host_page) = true
  ∧ ∀ c, four_silenced (cleanup c (activated host_page)).1.2 = true.
Proof.
  assert (Hs : four_silenced (activated host_page) = true) by reflexivity.
  split; [exact Hs |].
  exact (proj1 (proj2 (four_slots_stay_silenced (activated host_page)) Hs)).
Defined.

(** ** The rewriting of a segment *)

Lemma strip_leading_spaces_head (s : jsstring) :
  head (strip_leading_spaces s) ≠ Some SPACE.
Proof.
  induction s as [| c s IH]; cbn; [done |].
  destruct (N.eqb_spec c SPACE) as [-> | Hc]; [done |].
  cbn. by intros [= ->].
Qed.

Lemma strip_leading_spaces_id (s : jsstring) :
  head s ≠ Some SPACE → strip_leading_spaces s = s.
Proof. exact (strip_leading_spaces_repeat 0 s). Qed.

(** A string either has no [=] or splits at its first [=]. *)
Lemma first_equals (s : jsstring) :
  (EQUALS ∉ s) ∨ ∃ name rest, s = name ++ EQUALS :: rest ∧ (EQUALS ∉ name).
Proof.
  induction s as [| c s IH].
  - left. apply not_elem_of_nil.
  - destruct (decide (c = EQUALS)) as [-> | Hc].
    + right. exists [], s. split; [done | apply not_elem_of_nil].
    + destruct IH as [Hn | (name & rest & -> & Hn)].
      * left. by apply not_elem_of_cons.
      * right. exists (c :: name), rest. split; [done |].
        by apply not_elem_of_cons.
Qed.

Lemma after_dot_star_idem (s : jsstring) :
  after_dot_star (after_dot_star s) = after_dot_star s.
Proof.
  induction s as [| c s IH]; [done |]. cbn.
  destruct (is_line_terminator c) eqn:Hc; [| done]. cbn. by rewrite Hc.
Qed.

Lemma after_dot_star_skip (a b : jsstring) :
  Forall (λ c, is_line_terminator c = false) a →
  after_dot_star (a ++ b) = after_dot_star b.
Proof. induction 1 as [| c a Hc _ IH]; cbn; [done |]. by rewrite Hc. Qed.

Lemma EXPIRY_line :
  Forall (λ c, is_line_terminator c = false) (tail EXPIRY).
Proof.
  assert (H : forallb (λ c, negb (is_line_terminator c)) (tail EXPIRY)
              = true) by reflexivity.
  rewrite forallb_forall in H.
  apply Forall_forall. intros c Hc%list_elem_of_In. apply H in Hc.
  by apply negb_true_iff.
Qed.

Lemma replace_eq_dot_star_head (s : jsstring) :
  head s ≠ Some SPACE → head (replace_eq_dot_star EXPIRY s) ≠ Some SPACE.
Proof.
  destruct s as [| c s]; [done |]. cbn.
  destruct (N.eqb_spec c EQUALS); [done |]. done.
Qed.

(** X9. The rewriting of a segment is idempotent and its result never
    starts with a space: applied to one of its own results (an expiry
    assignment, or a segment without [=]) it gives that result back. *)
Theorem expire_segment_idempotent (s : jsstring) :
  expire_segment (expire_segment s) = expire_segment s
  ∧ head (expire_segment s) ≠ Some SPACE.
Proof.
  unfold expire_segment.
  pose proof (strip_leading_spaces_head s) as Hh.
  pose proof (replace_eq_dot_star_head _ Hh) as Hh'.
  split; [| exact Hh'].
  rewrite (strip_leading_spaces_id _ Hh').
  destruct (first_equals (strip_leading_spaces s))
    as [Hn | (name & rest & -> & Hn)].
  - by rewrite !(replace_eq_dot_star_none _ _ Hn).
  - rewrite replace_eq_dot_star_app by done.
    change EXPIRY with (EQUALS :: tail EXPIRY) at 2.
    rewrite <- app_comm_cons, replace_eq_dot_star_app by done.
    by rewrite after_dot_star_skip, after_dot_star_idem
      by apply EXPIRY_line.
Qed.

Lemma expire_segment_blank (k : nat) : expire_segment (repeat SPACE k) = [].
Proof.
  unfold expire_segment.
  rewrite <- (app_nil_r (repeat SPACE k)).
  by rewrite strip_leading_spaces_repeat.
Qed.

Lemma all_spaces_repeat (s : jsstring) :
  Forall (λ c, c = SPACE) s → s = repeat SPACE (length s).
Proof. induction 1 as [| c s -> _ IH]; cbn; [done |]. by rewrite <- IH. Qed.

Lemma split_on_snoc_sep (sep : N) (s : jsstring) :
  split_on sep (s ++ [sep]) = split_on sep s ++ [[]].
Proof.
  induction s as [| c s IH]; cbn [app split_on].
  - by rewrite N.eqb_refl.
  - rewrite IH. pose proof (split_on_nonempty sep s) as Hne.
    destruct (c =? sep)%N; [done |].
    by destruct (split_on sep s).
Qed.

(** X10. A segment made of spaces only, the empty one included, gives the
    assignment of the empty string: so the wipe of an empty cookie string
    still performs one assignment, [document.cookie = ""], and a cookie
    string that ends with a separator has one as its last assignment. *)
Theorem blank_segment_assignment (cookies : jsstring) (i : nat)
    (seg : jsstring) :
  split_on SEMICOLON cookies !! i = Some seg →
  Forall (λ c, c = SPACE) seg →
  cookie_assignments cookies !! i = Some []
  ∧ cookie_assignments [] = [[]]
  ∧ last (cookie_assignments (cookies ++ [SEMICOLON])) = Some [].
Proof.
  intros Hi Hseg. split; [| split; [reflexivity |]].
  - unfold cookie_assignments. rewrite list_lookup_fmap, Hi. cbn.
    by rewrite (all_spaces_repeat seg Hseg), expire_segment_blank.
  - unfold cookie_assignments.
    rewrite split_on_snoc_sep, map_app. cbn [map]. by rewrite last_snoc.
Qed.

Lemma blank_segment_assignment_witness :
  split_on SEMICOLON (js "a=1; ") !! 1%nat = Some (js " ")
  ∧ Forall (λ c, c = SPACE) (js " ")
  ∧ cookie_assignments (js "a=1; ") !! 1%nat = Some [].
Proof.
  assert (H1 : split_on SEMICOLON (js "a=1; ") !! 1%nat = Some (js " "))
    by reflexivity.
  assert (H2 : Forall (λ c, c = SPACE) (js " ")) by (by repeat constructor).
  split; [exact H1 |]. split; [exact H2 |].
  exact (proj1 (blank_segment_assignment (js "a=1; ") 1 (js " ") H1 H2)).
Defined.

(** ** Two wipes in a row *)

(** X14. On every page whose storage areas and cookie jar are there,
    whatever they hold, the wipe returns normally and leaves both
    storage areas empty, and a second wipe returns normally and leaves
    them empty; on a page whose storage areas are empty and which has no
    cookie the wipe changes nothing. *)
Theorem wipe_storage_idempotent (w : World) (l s : Storage) (j : Jar) :
  localStorage w = Some l → sessionStorage w = Some s →
  cookieJar w = Some j →
  ∃ w1 t1 w2 t2,
    handleDevToolsOpen w = (Ok tt, w1, t1)
    ∧ localStorage w1 = Some ∅ ∧ sessionStorage w1 = Some ∅
    ∧ handleDevToolsOpen w1 = (Ok tt, w2, t2)
    ∧ localStorage w2 = Some ∅ ∧ sessionStorage w2 = Some ∅
    ∧ (l = ∅ → s = ∅ → j = [] → w1 = w ∧ w2 = w).
Proof.
  intros Hl Hs Hj.
  exists (wiped j w). eexists.
  exists (wiped (jar_write_all (cookie_assignments (jar_read j)) j)
            (wiped j w)). eexists.
  split; [by rewrite handleDevToolsOpen_run, Hl, Hs, Hj |].
  split; [reflexivity |]. split; [reflexivity |].
  split; [by rewrite handleDevToolsOpen_run |].
  split; [reflexivity |]. split; [reflexivity |].
  intros -> -> ->. destruct w; cbn in *. by subst.
Qed.

Lemma wipe_storage_idempotent_witness :
  ∃ w1 t1 w2 t2,
    handleDevToolsOpen nameless_cookie_page = (Ok tt, w1, t1)
    ∧ localStorage w1 = Some ∅ ∧ sessionStorage w1 = Some ∅
    ∧ handleDevToolsOpen w1 = (Ok tt, w2, t2)
    ∧ localStorage w2 = Some ∅ ∧ sessionStorage w2 = Some ∅
    ∧ ({[ js "token" := js "abc" ]} = (∅ : Storage) →
       {[ js "tab" := js "7" ]} = (∅ : Storage) →
       [([] : jsstring, js "foo")] = [] →
       w1 = nameless_cookie_page ∧ w2 = nameless_cookie_page).
Proof.
  apply (wipe_storage_idempotent nameless_cookie_page
           {[ js "token" := js "abc" ]} {[ js "tab" := js "7" ]}
           [([], js "foo")]); reflexivity.
Defined.

(** ** The rewriting on arbitrary strings *)

(** On a string that no getter prints, with two spaces after the
    separator, the rewriting strips both spaces; stripping a single
    space would leave the assignment [ b=;...]. *)
Example cookie_assignments_two_spaces :
  cookie_assignments (js "a=1;  b=2")
    = [js "a=;expires=Thu, 01 Jan 1970 00:00:00 GMT;path=/";
       js "b=;expires=Thu, 01 Jan 1970 00:00:00 GMT;path=/"]
  ∧ spec_cookie_assignments (js "a=1;  b=2")
    = [js "a=;expires=Thu, 01 Jan 1970 00:00:00 GMT;path=/";
       js " b=;expires=Thu, 01 Jan 1970 00:00:00 GMT;path=/"]
  ∧ cookie_assignments (js "a=1;  b=2")
    ≠ spec_cookie_assignments (js "a=1;  b=2").
Proof. repeat split. discriminate. Qed.

(** X13. On every string, getter-shaped or not, the wipe assigns
    [document.cookie] once per segment, in order, the segments being the
    pieces between the [;] separators.  In a segment it strips every
    leading space and replaces the first [=] and what follows it on the
    same line by
    [=;expires=Thu, 01 Jan 1970 00:00:00 GMT;path=/]: up to the end of
    the segment when no line terminator follows, up to the first line
    terminator otherwise.  A segment without [=] is assigned as it is,
    less its leading spaces.  For [a=1; b=2] there are exactly two
    assignments, one expiring [a] and one expiring [b]. *)
Theorem cookie_assignments_spec (cookies : jsstring) :
  (∀ w l s j,
     localStorage w = Some l → sessionStorage w = Some s →
     cookieJar w = Some j →
     ∃ w', handleDevToolsOpen w
           = (Ok tt, w',
              EClear LocalArea :: EClear SessionArea
                :: map ECookieAssign (cookie_assignments (jar_read j))))
  ∧ join_with SEMICOLON (split_on SEMICOLON cookies) = cookies
  ∧ Forall (λ seg, SEMICOLON ∉ seg) (split_on SEMICOLON cookies)
  ∧ length (cookie_assignments cookies)
      = S (length (filter (λ c, c = SEMICOLON) cookies))
  ∧ (∀ (i k : nat) (seg name rest : jsstring),
       split_on SEMICOLON cookies !! i = Some seg →
       seg = repeat SPACE k ++ name ++ EQUALS :: rest →
       head name ≠ Some SPACE → EQUALS ∉ name →
       (Forall (λ c, is_line_terminator c = false) rest →
        cookie_assignments cookies !! i = Some (name ++ EXPIRY))
       ∧ (∀ a c b,
            rest = a ++ c :: b →
            Forall (λ c, is_line_terminator c = false) a →
            is_line_terminator c = true →
            cookie_assignments cookies !! i
              = Some (name ++ EXPIRY ++ c :: b)))
  ∧ (∀ (i k : nat) (seg body : jsstring),
       split_on SEMICOLON cookies !! i = Some seg →
       seg = repeat SPACE k ++ body →
       head body ≠ Some SPACE → EQUALS ∉ body →
       cookie_assignments cookies !! i = Some body)
  ∧ cookie_assignments (js "a=1; b=2")
      = [js "a=;expires=Thu, 01 Jan 1970 00:00:00 GMT;path=/";
         js "b=;expires=Thu, 01 Jan 1970 00:00:00 GMT;path=/"].
Proof.
  split; [| split; [| split; [| split; [| split; [| split]]]]].
  - intros w l s j Hl Hs Hj. rewrite handleDevToolsOpen_run, Hl, Hs, Hj.
    by eexists.
  - apply join_split_on.
  - apply split_on_segments.
  - unfold cookie_assignments. by rewrite length_map, length_split_on.
  - intros i k seg name rest Hi -> Hh He.
    unfold cookie_assignments. rewrite list_lookup_fmap, Hi. cbn.
    unfold expire_segment.
    rewrite strip_leading_spaces_repeat by (by destruct name).
    rewrite replace_eq_dot_star_app by done. split.
    + intros Hrest. by rewrite after_dot_star_line, app_nil_r.
    + intros a c b -> Ha Hc. by rewrite after_dot_star_app.
  - intros i k seg body Hi -> Hh He.
    unfold cookie_assignments. rewrite list_lookup_fmap, Hi. cbn.
    unfold expire_segment.
    by rewrite strip_leading_spaces_repeat, replace_eq_dot_star_none.
  - reflexivity.
Qed.

Lemma cookie_assignments_spec_witness :
  split_on SEMICOLON (js "a=1; b=2") !! 1%nat = Some (js " b=2")
  ∧ js " b=2" = repeat SPACE 1 ++ js "b" ++ EQUALS :: js "2"
  ∧ head (js "b") ≠ Some SPACE
  ∧ (EQUALS ∉ js "b")
  ∧ Forall (λ c, is_line_terminator c = false) (js "2")
  ∧ cookie_assignments (js "a=1; b=2") !! 1%nat = Some (js "b" ++ EXPIRY).
Proof.
  assert (H1 : split_on SEMICOLON (js "a=1; b=2") !! 1%nat
               = Some (js " b=2")) by reflexivity.
  assert (H2 : js " b=2" = repeat SPACE 1 ++ js "b" ++ EQUALS :: js "2")
    by reflexivity.
  assert (H3 : head (js "b") ≠ Some SPACE) by discriminate.
  assert (H4 : EQUALS ∉ js "b").
  { intros H%list_elem_of_singleton. discriminate. }
  assert (H5 : Forall (λ c, is_line_terminator c = false) (js "2")).
  { repeat constructor. }
  split; [exact H1 |]. split; [exact H2 |]. split; [exact H3 |].
  split; [exact H4 |]. split; [exact H5 |].
  destruct (cookie_assignments_spec (js "a=1; b=2"))
    as (_ & _ & _ & _ & Hseg & _).
  exact (proj1 (Hseg 1%nat 1%nat _ _ _ H1 H2 H3 H4) H5).
Defined.

(** ** Strict equality on the key code *)

(** X12. The key code is compared with [===]: an event whose [keyCode]
    is not a number (a string such as ["123"], or no property at all)
    never makes [disableKeyboardShortcuts] react, whatever its
    modifiers, and makes [detectDevTools] depend on the geometry
    alone. *)
Theorem keyCode_strict_equality (w : World) (ev : Event) :
  (∀ n, keyCode ev ≠ VNumber n) →
  disableKeyboardShortcuts (Some ev) w = (Ok tt, w, [])
  ∧ detectDevTools (Some ev) w = detectDevTools None w.
Proof.
  intros Hk.
  assert (Hs : ∀ n, strict_eq_number (keyCode ev) n = false).
  { intros n. destruct (keyCode ev) as [| | b | m | s] eqn:E; try done.
    by destruct (Hk m). }
  split.
  - rewrite disableKeyboardShortcuts_run. unfold shortcut.
    by rewrite !Hs, !andb_false_r.
  - rewrite !detectDevTools_run. cbn [opt_prop]. by rewrite Hs.
Qed.

Lemma keyCode_strict_equality_witness :
  (∀ n, keyCode {| keyCode := VString (js "123"); ctrlKey := VBool true;
                   shiftKey := VBool true |} ≠ VNumber n)
  ∧ disableKeyboardShortcuts
      (Some {| keyCode := VString (js "123"); ctrlKey := VBool true;
               shiftKey := VBool true |}) host_page
    = (Ok tt, host_page, []).
Proof.
  assert (Hk : ∀ n, keyCode {| keyCode := VString (js "123");
                               ctrlKey := VBool true;
                               shiftKey := VBool true |} ≠ VNumber n)
    by discriminate.
  split; [exact Hk |].
  exact (proj1 (keyCode_strict_equality host_page _ Hk)).
Defined.
